(** * Virtuals plugin (lib/plugins/virtuals.js): accessor and serialization
      interception over a persistent-record model.

    The plugin overrides [toJSON], [get], [set] and [save] of the base model
    and mixes in six Lodash methods.  The development below embeds those
    functions over

    - a small universe of JavaScript values (primitives and plain objects,
      numbers restricted to integers);
    - plain objects as insertion-ordered association lists of own
      properties; [virtuals], the one object the plugin indexes with
      caller-supplied names, is an object literal, and what it inherits
      from [Object.prototype] is modelled (see [member]);
    - a state-and-exception monad in which a thrown exception keeps the
      mutations made before the throw, as in JavaScript;
    - the base model ([proto.get], [proto.set], [proto.toJSON],
      [proto.save], [isNew], [saveMethod]) as an interface, since the base
      model is an external collaborator of the plugin; likewise the
      functions of [Object.prototype], which belong to the engine.

    The constructor, which installs each virtual as a property of the
    instance, is not on the path of [get], [set], [save] or [toJSON]; it
    is embedded on its own (see [constructor]). *)

From Stdlib Require Import List String Ascii ZArith Bool Lia DecimalString.
Import ListNotations.
Local Open Scope string_scope.
Local Open Scope Z_scope.

Set Implicit Arguments.
Set Warnings "-register-all".

(** ** JavaScript values *)

Module JS.

(** Primitives and plain objects.  A plain object is the ordered list of
    its own enumerable properties.  [VNum n] is the number [n], an
    integer a double holds exactly (at most [2^53 - 1] in absolute
    value). *)
Inductive value : Type :=
| VUndefined
| VNull
| VBool (b : bool)
| VNum (n : Z)
| VStr (s : string)
| VObj (o : list (string * value)).

Definition obj : Type := list (string * value).

(** Exceptions: a value thrown by user code, or one of the two engine
    errors the plugin can run into. *)
Inductive exn : Type :=
| Thrown (v : value)
| RangeError   (* maximum call stack size exceeded *)
| TypeError.   (* strict mode: property assignment on a primitive *)

(** [x == null] *)
Definition is_nullish (v : value) : bool :=
  match v with
  | VUndefined | VNull => true
  | _ => false
  end.

(** [_.isObject(x)] on the value universe above. *)
Definition isObject (v : value) : bool :=
  match v with
  | VObj _ => true
  | _ => false
  end.

(** [typeof x === "object"]: objects and [null]. *)
Definition typeof_object (v : value) : bool :=
  match v with
  | VObj _ | VNull => true
  | _ => false
  end.

(** Truthiness ([ToBoolean]). *)
Definition truthy (v : value) : bool :=
  match v with
  | VUndefined | VNull => false
  | VBool b => b
  | VNum n => negb (n =? 0)
  | VStr s => negb (String.eqb s "")
  | VObj _ => true
  end.

(** [x === true] and [x === false]. *)
Definition is_true (v : value) : bool :=
  match v with VBool true => true | _ => false end.

Definition is_false (v : value) : bool :=
  match v with VBool false => true | _ => false end.

(** [ToPropertyKey]: the string under which a value indexes an object. *)
Definition to_key (v : value) : string :=
  match v with
  | VUndefined => "undefined"
  | VNull => "null"
  | VBool true => "true"
  | VBool false => "false"
  | VNum n => NilZero.string_of_int (Z.to_int n)
  | VStr s => s
  | VObj _ => "[object Object]"
  end.

(** *** Own-property operations on plain objects *)

Fixpoint obj_get (k : string) (o : obj) : option value :=
  match o with
  | [] => None
  | (k', v) :: o' => if String.eqb k k' then Some v else obj_get k o'
  end.

(** [o[k] = v]: overwrite in place, or append a new property. *)
Fixpoint obj_put (k : string) (v : value) (o : obj) : obj :=
  match o with
  | [] => [(k, v)]
  | (k', v') :: o' =>
      if String.eqb k k' then (k, v) :: o' else (k', v') :: obj_put k v o'
  end.

(** [delete o[k]] *)
Definition obj_del (k : string) (o : obj) : obj :=
  filter (fun kv => negb (String.eqb k (fst kv))) o.

Definition obj_keys (o : obj) : list string := map fst o.

(** [x.k] on a value that is not nullish: a missing property, and any
    property of a primitive, reads as [undefined]. *)
Definition prop (v : value) (k : string) : value :=
  match v with
  | VObj o => match obj_get k o with Some x => x | None => VUndefined end
  | _ => VUndefined
  end.

(** The functions every object literal inherits from [Object.prototype];
    none of them is enumerable. *)
Definition Object_prototype_functions : list string :=
  ["constructor"; "hasOwnProperty"; "isPrototypeOf"; "propertyIsEnumerable";
   "toLocaleString"; "toString"; "valueOf"; "__defineGetter__";
   "__defineSetter__"; "__lookupGetter__"; "__lookupSetter__"].

Definition inherited_function (k : string) : bool :=
  existsb (String.eqb k) Object_prototype_functions.

(** A name found on [Object.prototype]: one of its functions, or the
    accessor [__proto__]. *)
Definition inherited_name (k : string) : bool :=
  String.eqb k "__proto__" || inherited_function k.

(** [a && b] and [a || b] on values (both operands already evaluated). *)
Definition js_and (a b : value) : value := if truthy a then b else a.
Definition js_or (a b : value) : value := if truthy a then a else b.

End JS.
Export JS.

(** ** The Lodash functions the plugin calls *)

Module Lodash.

(** [_.extend(dst, src)]: assign every property of [src], in order. *)
Definition extend (dst src : obj) : obj :=
  fold_left (fun acc kv => obj_put (fst kv) (snd kv) acc) src dst.

(** [_.extend(dst, src)] where [src] may be [undefined]. *)
Definition extend_opt (dst : obj) (src : option obj) : obj :=
  match src with
  | Some o => extend dst o
  | None => dst
  end.

(** [_.clone(x)]: shallow; on immutable data the copy is the value. *)
Definition clone (v : value) : value := v.

(** Largest array length Lodash accepts ([Number.MAX_SAFE_INTEGER]). *)
Definition MAX_SAFE_INTEGER : Z := 9007199254740991.

(** [isArrayLike(o)] for a plain object: an own [length] that is a
    valid array length.  Returns that length. *)
Definition array_like_length (o : obj) : option Z :=
  match obj_get "length" o with
  | Some (VNum n) =>
      if (0 <=? n) && (n <=? MAX_SAFE_INTEGER) then Some n else None
  | _ => None
  end.

End Lodash.
Export Lodash.

(** ** State and exceptions

    A computation runs on the model instance, may mutate it, and either
    returns or throws.  A throw keeps the instance as mutated so far. *)

Module Eff.

Inductive result (A : Type) : Type :=
| Ok (a : A)
| Throw (e : exn).
Arguments Ok {A} a.
Arguments Throw {A} e.

Definition M (S A : Type) : Type := S -> S * result A.

Definition ret {S A} (a : A) : M S A := fun s => (s, Ok a).

Definition throw {S A} (e : exn) : M S A := fun s => (s, Throw e).

Definition bind {S A C} (c : M S A) (k : A -> M S C) : M S C :=
  fun s =>
    match c s with
    | (s1, Ok a) => k a s1
    | (s1, Throw e) => (s1, Throw e)
    end.

Definition get_state {S} : M S S := fun s => (s, Ok s).

Definition modify {S} (f : S -> S) : M S unit := fun s => (f s, Ok tt).

(** [if (c) { body }] for a body run for its effect. *)
Definition when {S} (c : bool) (body : M S unit) : M S unit :=
  if c then body else ret tt.

(** [try { body } catch (e) { handler e }] *)
Definition try_catch {S A} (body : M S A) (handler : exn -> M S A) : M S A :=
  fun s =>
    match body s with
    | (s1, Ok a) => (s1, Ok a)
    | (s1, Throw e) => handler e s1
    end.

(** [try { body } finally { fin }]: [fin] runs on every exit path; the
    outcome of [body] stands unless [fin] itself throws. *)
Definition try_finally {S A} (body : M S A) (fin : M S unit) : M S A :=
  fun s =>
    match body s with
    | (s1, r) =>
        match fin s1 with
        | (s2, Ok _) => (s2, r)
        | (s2, Throw e) => (s2, Throw e)
        end
    end.

(** Left-to-right loop threading an accumulator. *)
Fixpoint foldM {S A X} (f : A -> X -> M S A) (xs : list X) (a : A) : M S A :=
  match xs with
  | [] => ret a
  | x :: xs' => bind (f a x) (fun a' => foldM f xs' a')
  end.

End Eff.
Export Eff.

Declare Scope eff_scope.
Delimit Scope eff_scope with eff.
Notation "x <- c ;; k" := (bind c (fun x => k))
  (at level 61, c at next level, right associativity) : eff_scope.
Notation "c ;;; k" := (bind c (fun _ => k))
  (at level 61, right associativity) : eff_scope.
Local Open Scope eff_scope.

(** [_.omitBy(o, pred)] with an effectful predicate called as
    [pred(value, key)] on every property in order: the result keeps the
    properties for which it answered falsy. *)
Fixpoint omitBy {S} (pred : value -> string -> M S bool) (o : obj) : M S obj :=
  match o with
  | [] => ret []
  | (k, v) :: o' =>
      b <- pred v k ;;
      rest <- omitBy pred o' ;;
      ret (if b then rest else (k, v) :: rest)
  end.

(** ** The base model

    What the plugin calls on the prototype it extends.  [B] is the state
    of a base model instance; the plugin's own field [patchAttributes]
    lives beside it (see [Instance]) and is unknown to the base model. *)

(** What [set] returns: the instance itself ([return this]) or a value. *)
Inductive ret_val : Type :=
| This
| Returned (v : value).

(** The deferred outcome of a save. *)
Inductive promise : Type :=
| Resolved (v : value)
| Rejected (e : exn).

Class BaseModel (B : Type) : Type := {
  (** [this.attributes] *)
  attributes : B -> obj;
  (** [proto.get.apply(this, arguments)] *)
  proto_get : list value -> M B value;
  (** [proto.set.apply(this, arguments)] *)
  proto_set : list value -> M B ret_val;
  (** [proto.toJSON.call(this, options)] *)
  proto_toJSON : value -> M B obj;
  (** [proto.save.call(this, attrs, options)] *)
  proto_save : value -> value -> M B promise;
  (** [this.isNew()] *)
  isNew : B -> bool;
  (** [this.saveMethod(options)] *)
  saveMethod : B -> value -> value
}.

(** A model instance of the extended class: the base instance and the
    transient [patchAttributes] field ([None] when the field is absent). *)
Record Instance (B : Type) : Type := {
  base : B;
  patchAttributes : option obj
}.
Arguments base {B} _.
Arguments patchAttributes {B} _.

Definition with_patch {B} (p : option obj) (s : Instance B) : Instance B :=
  {| base := base s; patchAttributes := p |}.

(** Run a base-model computation on the instance. *)
Definition lift {B A} (c : M B A) : M (Instance B) A :=
  fun s =>
    match c (base s) with
    | (b, r) => ({| base := b; patchAttributes := patchAttributes s |}, r)
    end.

(** The engine's part: [Object.prototype[name].apply(this, args)] for the
    functions of [Object.prototype], with the model instance as [this]. *)
Class Engine (B : Type) : Type := {
  builtin_apply : string -> list value -> M (Instance B) value
}.

(** ** The plugin *)

Section Plugin.

Context {B : Type} {base_model : BaseModel B} {engine : Engine B}.

(** The instance as user code sees it through [this]: getters and setters
    reach the overridden accessors of the model they are bound to. *)
Record Self : Type := {
  this_get : list value -> M (Instance B) value;
  this_set : list value -> M (Instance B) ret_val
}.

(** A getter is applied to [this] and its positional arguments; a setter
    to [this] and the value written (what it returns is discarded). *)
Definition getter : Type := Self -> list value -> M (Instance B) value.
Definition setter : Type := Self -> value -> M (Instance B) value.

(** An entry of [virtuals]: a plain function, or an object carrying [get]
    and possibly [set]. *)
Inductive virtual : Type :=
| Computed (g : getter)
| Accessor (g : getter) (s : option setter).

(** Class-level configuration: [virtuals] (possibly undefined) and
    [outputVirtuals]. *)
Record ModelClass : Type := {
  virtuals : option (list (string * virtual));
  outputVirtuals : bool
}.

Variable cls : ModelClass.

Fixpoint assoc (k : string) (r : list (string * virtual)) : option virtual :=
  match r with
  | [] => None
  | (k', v) :: r' => if String.eqb k k' then Some v else assoc k r'
  end.

(** The entry declared under that name: the own property [key] of
    [this.virtuals], if there is one. *)
Definition registered (key : value) : option virtual :=
  match virtuals cls with
  | Some r => assoc (to_key key) r
  | None => None
  end.

(** What [this.virtuals[key]] can be: a declared entry, a function
    inherited from [Object.prototype], or [Object.prototype] itself
    (through [__proto__]).  All three are truthy. *)
Inductive member : Type :=
| Declared (vt : virtual)
| BuiltinFunction (name : string)
| PrototypeObject.

(** [this.virtuals && this.virtuals[key]]: a plain property read on the
    object literal, so an own entry first, then the prototype. *)
Definition lookup (key : value) : option member :=
  match virtuals cls with
  | Some r =>
      match assoc (to_key key) r with
      | Some vt => Some (Declared vt)
      | None =>
          if String.eqb (to_key key) "__proto__" then Some PrototypeObject
          else if inherited_function (to_key key)
          then Some (BuiltinFunction (to_key key))
          else None
      end
  | None => None
  end.

(** Whether [this.virtuals[key]] is truthy. *)
Definition is_virtual (key : value) : bool :=
  match lookup key with Some _ => true | None => false end.

(** [virtual.get] if present, else the entry itself. *)
Definition getter_of (vt : virtual) : getter :=
  match vt with
  | Computed g => g
  | Accessor g _ => g
  end.

(** [virtual.set] *)
Definition setter_of (vt : virtual) : option setter :=
  match vt with
  | Computed _ => None
  | Accessor _ s => s
  end.

(** [function getVirtual(model, virtualName, ...virtualParams)].  An
    inherited function has no [get] and is applied itself;
    [Object.prototype] has neither [get] nor [apply], and calling
    [undefined] is a [TypeError]. *)
Definition getVirtual (this : Self) (virtualName : value)
    (virtualParams : list value) : M (Instance B) value :=
  match lookup virtualName with
  | Some (Declared vt) => getter_of vt this virtualParams
  | Some (BuiltinFunction name) => builtin_apply name virtualParams
  | Some PrototypeObject => throw TypeError
  | None => ret VUndefined
  end.

(** [typeof(params) === 'object' && params !== null ? params[virtualName] : undefined] *)
Definition paramsForVirtual (params : value) (virtualName : string) : value :=
  if typeof_object params && negb (is_nullish params)
  then prop params virtualName
  else VUndefined.

(** [function getVirtuals(model, params)] *)
Definition getVirtuals (this : Self) (params : value) : M (Instance B) obj :=
  match virtuals cls with
  | None => ret []
  | Some r =>
      foldM (fun attrs virtualName =>
               v <- getVirtual this (VStr virtualName)
                      [paramsForVirtual params virtualName] ;;
               ret (obj_put virtualName v attrs))
            (map fst r) []
  end.

(** [function setVirtual(value, key)], called with [this] bound.  Nothing
    inherited from [Object.prototype] has a [set]. *)
Definition setVirtual (this : Self) (value key : value) : M (Instance B) bool :=
  match lookup key with
  | Some (Declared vt) =>
      match setter_of vt with
      | Some f => _ <- f this value ;; ret true
      | None => ret true
      end
  | Some _ => ret true
  | None => ret false
  end.

(** [toJSON: function(options)] *)
Definition toJSON (this : Self) (options : value) : M (Instance B) obj :=
  attrs <- lift (proto_toJSON options) ;;
  s <- get_state ;;
  if truthy options && truthy (prop options "omitNew") && isNew (base s)
  then ret attrs
  else
    if negb (truthy options) || negb (is_false (prop options "virtuals"))
    then
      if (truthy options && is_true (prop options "virtuals"))
         || outputVirtuals cls
      then
        vs <- getVirtuals this (js_and options (prop options "virtualParams")) ;;
        ret (extend attrs vs)
      else ret attrs
    else ret attrs.

(** [get: function(attr)] with the whole argument list. *)
Definition get (this : Self) (arguments : list value) : M (Instance B) value :=
  let attr := nth 0 arguments VUndefined in
  if is_virtual attr
  then getVirtual this attr (tl arguments)
  else lift (proto_get arguments).

(** [this.patchAttributes[key] = value] / [_.extend(this.patchAttributes, o)]
    on the buffer as it is at that moment. *)
Definition buffer_extend (o : obj) : M (Instance B) unit :=
  modify (fun s =>
            with_patch (option_map (fun b => extend b o) (patchAttributes s)) s).

Definition buffer_put (k : string) (v : value) : M (Instance B) unit :=
  modify (fun s =>
            with_patch (option_map (obj_put k v) (patchAttributes s)) s).

(** [set: function(key, value, options)] with the whole argument list
    (the single-key path forwards [arguments] to the base model). *)
Definition set (this : Self) (arguments : list value) : M (Instance B) ret_val :=
  let key := nth 0 arguments VUndefined in
  let value := nth 1 arguments VUndefined in
  let options := nth 2 arguments VUndefined in
  if is_nullish key then ret This
  else
    s <- get_state ;;
    let isPatching :=
      match patchAttributes s with Some _ => true | None => false end in
    match key with
    | VObj bag =>
        nonVirtuals <- omitBy (fun v k => setVirtual this v (VStr k)) bag ;;
        when isPatching (buffer_extend nonVirtuals) ;;;
        lift (proto_set [VObj nonVirtuals; options])
    | _ =>
        isVirtual <- setVirtual this value key ;;
        if isVirtual then ret This
        else
          when isPatching (buffer_put (to_key key) value) ;;;
          lift (proto_set arguments)
    end.

(** The callback of the patch loop: call the setter of a virtual key and
    [delete attrs[key]]. *)
Definition strip_virtual (this : Self) (attrs : obj) (value key : value)
  : M (Instance B) obj :=
  isVirtual <- setVirtual this value key ;;
  ret (if isVirtual then obj_del (to_key key) attrs else attrs).

(** [_.each(attrs, callback)].  Lodash walks an object that has a valid
    [length] by index, like an array, reading [attrs[index]] as it goes;
    any other object by the own properties it had when the loop started
    (the callback deletes none but the one it is visiting, so each is
    visited with its value). *)
Definition each (this : Self) (attrs : obj) : M (Instance B) obj :=
  match array_like_length attrs with
  | Some n =>
      foldM (fun acc index =>
               strip_virtual this acc
                 (prop (VObj acc) (to_key (VNum (Z.of_nat index))))
                 (VNum (Z.of_nat index)))
            (seq 0 (Z.to_nat n)) attrs
  | None =>
      foldM (fun acc kv => strip_virtual this acc (snd kv) (VStr (fst kv)))
            attrs attrs
  end.

Definition as_obj (v : value) : obj :=
  match v with VObj o => o | _ => [] end.

(** The head of [save]: both call shapes, [("key", value, options)] and
    [({key: value}, options)], normalised to the payload and the options. *)
Definition save_arguments (key value options : value) : obj * JS.value :=
  if is_nullish key || typeof_object key
  then (as_obj (js_or (js_and key (clone key)) (VObj [])),
        js_or (clone value) (VObj []))
  else (obj_put (to_key key) value [],
        if truthy options then clone options else VObj []).

Definition is_update (method : value) : bool :=
  match method with VStr m => String.eqb m "update" | _ => false end.

(** [save: function(key, value, options)] *)
Definition save (this : Self) (key value options : value)
  : M (Instance B) promise :=
  let '(attrs, options) := save_arguments key value options in
  s <- get_state ;;
  let method := saveMethod (base s) options in
  match options with
  | VObj o =>
      let options := obj_put "method" method o in
      if is_update (prop (VObj options) "method")
         && truthy (prop (VObj options) "patch")
      then
        modify (with_patch (Some [])) ;;;
        r <- try_finally
               (try_catch
                  (attrs' <- each this attrs ;;
                   s' <- get_state ;;
                   ret (inl (extend_opt attrs' (patchAttributes s'))))
                  (fun e => ret (inr (Rejected e))))
               (modify (with_patch None)) ;;
        match r with
        | inr rejected => ret rejected
        | inl attrs' => lift (proto_save (VObj attrs') (VObj options))
        end
      else lift (proto_save (VObj attrs) (VObj options))
  | _ => throw TypeError
  end.

(** [modelMethods] and the mix-in built from each of them.  [lodash m]
    stands for [_[m]], applied to the merged object followed by the
    caller's arguments.  [this.attributes] is the live object, so it is
    read as the getters left it. *)
Inductive modelMethod : Type :=
| keys | values | toPairs | invert | pick | omit.

Definition modelMethods : list modelMethod :=
  [keys; values; toPairs; invert; pick; omit].

Definition mixin {R : Type} (lodash : modelMethod -> list value -> R)
    (method : modelMethod) (this : Self) (arguments : list value)
  : M (Instance B) R :=
  vs <- getVirtuals this VUndefined ;;
  s <- get_state ;;
  ret (lodash method
         (VObj (extend (extend [] (attributes (base s))) vs) :: arguments)).

(** The call stack.  [self d] is the instance seen by user code when [d]
    further nested accessor calls fit on the stack; past that the engine
    throws a [RangeError]. *)
Definition exhausted : Self := {|
  this_get := fun _ => throw RangeError;
  this_set := fun _ => throw RangeError
|}.

Fixpoint self (d : nat) : Self :=
  match d with
  | O => exhausted
  | S d' => {| this_get := get (self d'); this_set := set (self d') |}
  end.

End Plugin.

Arguments Self B : clear implicits.
Arguments ModelClass B : clear implicits.
Arguments virtual B : clear implicits.

(** ** A reference base model

    Used to run the plugin on concrete calls. *)

Module Store.

(** A call the base model received. *)
Inductive call : Type :=
| CallSet (arguments : list value)
| CallSave (attrs options : value).

(** Modelled from the spec: the base record of section 6 is not part of
    the plugin file.  A record owns its attribute set and knows whether it
    has a persisted identity; [calls] is the history of the writes and
    saves it was asked to perform, oldest first. *)
Record Row : Type := {
  row_attributes : obj;
  row_persisted : bool;
  calls : list call
}.

Definition log (c : call) (r : Row) : Row :=
  {| row_attributes := row_attributes r;
     row_persisted := row_persisted r;
     calls := calls r ++ [c] |}.

Definition write (f : obj -> obj) (r : Row) : Row :=
  {| row_attributes := f (row_attributes r);
     row_persisted := row_persisted r;
     calls := calls r |}.

(** Modelled from the spec: [get(name, ...args)] of section 6, the
    real-attribute read. *)
Definition row_get (arguments : list value) : M Row value :=
  fun r =>
    (r, Ok (prop (VObj (row_attributes r)) (to_key (nth 0 arguments VUndefined)))).

(** Modelled from the spec: [set(nameOrBag, value, options)] of section 6,
    the real-attribute write in its bag and single-key shapes. *)
Definition row_set (arguments : list value) : M Row ret_val :=
  fun r =>
    let key := nth 0 arguments VUndefined in
    if is_nullish key then (r, Ok This)
    else
      let r := log (CallSet arguments) r in
      match key with
      | VObj bag => (write (fun a => extend a bag) r, Ok This)
      | _ =>
          (write (obj_put (to_key key) (nth 1 arguments VUndefined)) r, Ok This)
      end.

(** Modelled from the spec: [toJSON(options)] of section 6, a plain
    mapping of the persisted attributes. *)
Definition row_toJSON (options : value) : M Row obj :=
  fun r => (r, Ok (row_attributes r)).

(** Modelled from the spec: [save(keyOrBag, value, options)] of section 6;
    the call is recorded and the deferred outcome is a success. *)
Definition row_save (attrs options : value) : M Row promise :=
  fun r => (log (CallSave attrs options) r, Ok (Resolved attrs)).

(** Modelled from the spec: [isNew()] of section 6. *)
Definition row_isNew (r : Row) : bool := negb (row_persisted r).

(** Modelled from the spec: [options.method] is insert or update; when it
    is not given a record without persisted identity is inserted and any
    other is updated. *)
Definition row_saveMethod (r : Row) (options : value) : value :=
  if truthy (prop options "method") then prop options "method"
  else if row_isNew r then VStr "insert" else VStr "update".

#[export] Instance row_model : BaseModel Row := {|
  attributes := row_attributes;
  proto_get := row_get;
  proto_set := row_set;
  proto_toJSON := row_toJSON;
  proto_save := row_save;
  isNew := row_isNew;
  saveMethod := row_saveMethod
|}.

(** The functions of [Object.prototype] on a reference record, after
    ECMAScript: [toString] answers ["[object Object]"] on an ordinary
    object; [isPrototypeOf] answers [false], since no value of the
    universe has the record on its prototype chain; [__defineGetter__]
    and [__defineSetter__] throw a [TypeError], since no value of the
    universe is callable.  The other functions answer with objects, or
    about the property table of the instance, which the value universe
    does not hold; they are given [undefined] here and no run below calls
    them. *)
Definition row_builtin (name : string) (args : list value)
  : M (Instance Row) value :=
  if String.eqb name "toString" then ret (VStr "[object Object]")
  else if String.eqb name "isPrototypeOf" then ret (VBool false)
  else if String.eqb name "__defineGetter__"
          || String.eqb name "__defineSetter__"
  then throw TypeError
  else ret VUndefined.

#[export] Instance row_engine : Engine Row := {|
  builtin_apply := row_builtin
|}.

(** [x.split(' ')] *)
Fixpoint split_space (cur : string) (x : string) : list string :=
  match x with
  | EmptyString => [cur]
  | String c x' =>
      if Ascii.eqb c " "%char then cur :: split_space "" x'
      else split_space (cur ++ String c "") x'
  end.

Definition split_at (i : nat) (x : value) : value :=
  match x with
  | VStr s => nth i (map VStr (split_space "" s)) VUndefined
  | _ => VUndefined
  end.

(** [a + ' ' + b] on strings. *)
Definition join_space (a b : value) : value :=
  match a, b with
  | VStr a, VStr b => VStr (a ++ " " ++ b)
  | _, _ => VUndefined
  end.

(** [fullName: { get() { return this.get('first') + ' ' + this.get('last') },
                 set(x) { this.set('first', x.split(' ')[0]);
                          this.set('last', x.split(' ')[1]) } }] *)
Definition fullName : virtual Row :=
  Accessor
    (fun this _ =>
       a <- this_get this [VStr "first"] ;;
       b <- this_get this [VStr "last"] ;;
       ret (join_space a b))
    (Some (fun this x =>
             this_set this [VStr "first"; split_at 0 x] ;;;
             this_set this [VStr "last"; split_at 1 x] ;;;
             ret VUndefined)).

(** [initials: function() { return 'AL' }], a read-only virtual. *)
Definition initials : virtual Row :=
  Computed (fun _ _ => ret (VStr "AL")).

(** [locked: { get() { return true }, set(x) { throw x } }] *)
Definition locked : virtual Row :=
  Accessor (fun _ _ => ret (VBool true))
           (Some (fun _ x => throw (Thrown x))).

(** [v: { get() { return this.get('seen') }, set(x) { this.set('seen', x); return 7 } }] *)
Definition v_virtual : virtual Row :=
  Accessor (fun this _ => this_get this [VStr "seen"])
           (Some (fun this x =>
                    this_set this [VStr "seen"; x] ;;; ret (VNum 7))).

Definition Person : ModelClass Row := {|
  virtuals := Some [("fullName", fullName); ("initials", initials);
                    ("locked", locked); ("v", v_virtual)];
  outputVirtuals := true
|}.

(** The same class with virtuals left out of serialization by default. *)
Definition QuietPerson : ModelClass Row := {|
  virtuals := virtuals Person;
  outputVirtuals := false
|}.

(** A fetched record, and a record not yet persisted. *)
Definition ada : Instance Row := {|
  base := {| row_attributes := [("id", VNum 1); ("first", VStr "A");
                                ("last", VStr "L")];
             row_persisted := true;
             calls := [] |};
  patchAttributes := None
|}.

Definition draft : Instance Row := {|
  base := {| row_attributes := [("first", VStr "A"); ("last", VStr "L")];
             row_persisted := false;
             calls := [] |};
  patchAttributes := None
|}.

(** [ada] in the middle of a patch save, with an empty capture buffer. *)
Definition capturing : Instance Row := with_patch (Some []) ada.

(** Stack depth used for the concrete runs. *)
Definition depth : nat := 8.

End Store.

(** ** Reading the loops

    Declarative counterparts of the plugin's loops, against which the
    embedded functions are compared below. *)

Section Reading.

Context {B : Type}.
Variable cls : ModelClass B.

(** The setter calls a bag of properties triggers, in property order: one
    call per property whose name is a virtual that has a setter, with the
    property's value; nothing for any other property. *)
Fixpoint run_setters (this : Self B) (o : obj) : M (Instance B) unit :=
  match o with
  | [] => ret tt
  | (k, v) :: o' =>
      match registered cls (VStr k) with
      | Some vt =>
          match setter_of vt with
          | Some f => f this v ;;; run_setters this o'
          | None => run_setters this o'
          end
      | None => run_setters this o'
      end
  end.

(** The properties of a bag under whose names [this.virtuals[name]]
    finds nothing. *)
Definition non_virtuals (o : obj) : obj :=
  filter (fun kv => negb (is_virtual cls (VStr (fst kv)))) o.

(** The properties of a bag whose names are not declared virtuals. *)
Definition undeclared (o : obj) : obj :=
  filter (fun kv =>
            match registered cls (VStr (fst kv)) with
            | Some _ => false
            | None => true
            end) o.

(** Names among the properties of a bag under which
    [this.virtuals[name]] finds something. *)
Definition virtual_keys (o : obj) : list string :=
  map fst (filter (fun kv => is_virtual cls (VStr (fst kv))) o).

(** A bag after [delete] of each of the given names. *)
Definition without (ks : list string) (o : obj) : obj :=
  filter (fun kv => negb (existsb (String.eqb (fst kv)) ks)) o.

(** Every getter of a registry applied in turn to the one-element argument
    list holding that virtual's parameter, each result stored under the
    virtual's name. *)
Fixpoint eval_virtuals (this : Self B) (params : value)
    (r : list (string * virtual B)) (acc : obj) : M (Instance B) obj :=
  match r with
  | [] => ret acc
  | (name, vt) :: r' =>
      v <- getter_of vt this [paramsForVirtual params name] ;;
      eval_virtuals this params r' (obj_put name v acc)
  end.

(** The names declared in [virtuals]. *)
Definition virtual_names : list string :=
  match virtuals cls with
  | Some r => map fst r
  | None => []
  end.

(** [options.virtuals], read as [undefined] when there are no options. *)
Definition virtuals_option (options : value) : value :=
  prop options "virtuals".

(** The inclusion rule of the serializer: [virtuals] is strictly [true],
    or it is not strictly [false] and the class default is on. *)
Definition merges_virtuals (options : value) : bool :=
  is_true (virtuals_option options)
  || (negb (is_false (virtuals_option options)) && outputVirtuals cls).

End Reading.

(** ** Setters that write through the accessor, and the constructor *)

Section UserCode.
Context {B : Type}.
Variable cls : ModelClass B.

(** A setter that does nothing but write real attributes through the
    accessor, one [this.set(k, f(x))] after the other, as in
    [set(x) { this.set('first', x.split(' ')[0]); this.set('last', ...) }]. *)
Fixpoint writer (ws : list (string * (JS.value -> JS.value)))
    (this : Self B) (x : JS.value) : M (Instance B) JS.value :=
  match ws with
  | [] => ret VUndefined
  | (k, f) :: ws' => this_set this [VStr k; f x] ;;; writer ws' this x
  end.

(** What such a setter writes, in order. *)
Definition written (ws : list (string * (JS.value -> JS.value)))
    (x : JS.value) : obj :=
  map (fun kf => (fst kf, snd kf x)) ws.

(** The descriptor handed to [Object.defineProperty]:
    [{enumerable: true, get: getter, set: setter}]. *)
Record property : Type := {
  enumerable : bool;
  property_get : Self B -> list JS.value -> M (Instance B) JS.value;
  property_set : option (Self B -> JS.value -> M (Instance B) JS.value)
}.

(** One turn of the constructor's loop: the getter and setter are taken
    from [virtuals[virtualName]] ([get] and [set] when the entry has a
    [get], the entry itself and no setter otherwise) and the property is
    defined. *)
Definition defineProperty (r : list (string * virtual B))
    (virtualName : string) : list (string * property) :=
  match assoc virtualName r with
  | Some (Accessor g st) =>
      [(virtualName,
        {| enumerable := true; property_get := g; property_set := st |})]
  | Some (Computed g) =>
      [(virtualName,
        {| enumerable := true; property_get := g; property_set := None |})]
  | None => []
  end.

(** The loop of the constructor: for each name of [virtuals], in order,
    the accessor property it defines on the instance. *)
Definition defineProperties : list (string * property) :=
  match virtuals cls with
  | None => []
  | Some r => flat_map (defineProperty r) (map fst r)
  end.

(** [constructor: function(attributes, options)]: the base constructor
    runs first on the same arguments, then the properties are defined.
    The result is the list of properties the instance received. *)
Definition constructor
    (proto_constructor : list JS.value -> M (Instance B) unit)
    (arguments : list JS.value) : M (Instance B) (list (string * property)) :=
  proto_constructor arguments ;;;
  ret defineProperties.

(** Reading [model[name]] when [name] is one of the accessor properties:
    the getter is called on the instance with no argument. *)
Fixpoint read_property (props : list (string * property)) (this : Self B)
    (name : string) : option (M (Instance B) JS.value) :=
  match props with
  | [] => None
  | (k, p) :: props' =>
      if String.eqb name k then Some (property_get p this [])
      else read_property props' this name
  end.

End UserCode.

Arguments property B : clear implicits.

(** ** Facts about objects *)

Section ObjectFacts.

Lemma obj_get_put_same (k : string) (v : value) (o : obj) :
  obj_get k (obj_put k v o) = Some v.
Proof.
  induction o as [|[k' v'] o IH]; simpl.
  - now rewrite String.eqb_refl.
  - destruct (String.eqb k k') eqn:E; simpl; rewrite ?String.eqb_refl, ?E; auto.
Qed.

Lemma obj_get_put_other (k k' : string) (v : value) (o : obj) :
  k <> k' -> obj_get k (obj_put k' v o) = obj_get k o.
Proof.
  intros N. apply String.eqb_neq in N.
  induction o as [|[k0 v0] o IH]; simpl.
  - now rewrite N.
  - destruct (String.eqb k' k0) eqn:E; simpl.
    + apply String.eqb_eq in E. subst k0. now rewrite N.
    + now rewrite IH.
Qed.

Lemma obj_keys_put (k k' : string) (v : value) (o : obj) :
  In k (obj_keys (obj_put k' v o)) <-> k = k' \/ In k (obj_keys o).
Proof.
  unfold obj_keys. induction o as [|[k0 v0] o IH]; simpl.
  - intuition.
  - destruct (String.eqb k' k0) eqn:E; simpl.
    + apply String.eqb_eq in E. subst k0. intuition.
    + rewrite IH. intuition.
Qed.

Lemma obj_keys_extend (k : string) (src dst : obj) :
  In k (obj_keys (extend dst src)) <-> In k (obj_keys dst) \/ In k (obj_keys src).
Proof.
  unfold extend. revert dst.
  induction src as [|[k0 v0] src IH]; intros dst; simpl.
  - intuition.
  - rewrite IH, obj_keys_put. simpl. intuition.
Qed.

Lemma obj_put_NoDup (k : string) (v : value) (o : obj) :
  NoDup (obj_keys o) -> NoDup (obj_keys (obj_put k v o)).
Proof.
  unfold obj_keys. induction o as [|[k0 v0] o IH]; simpl; intros H.
  - constructor; [intros [] | constructor].
  - inversion H as [|? ? Hn Hd]; subst.
    destruct (String.eqb k k0) eqn:E; simpl.
    + apply String.eqb_eq in E. subst k0. now constructor.
    + constructor; [|now apply IH].
      intros Hin. apply (obj_keys_put k0 k v o) in Hin.
      destruct Hin as [->|Hin]; [|contradiction].
      now rewrite String.eqb_refl in E.
Qed.

Lemma obj_get_None (k : string) (o : obj) :
  obj_get k o = None <-> ~ In k (obj_keys o).
Proof.
  unfold obj_keys. induction o as [|[k0 v0] o IH]; simpl.
  - intuition.
  - destruct (String.eqb k k0) eqn:E.
    + apply String.eqb_eq in E. subst. split; [discriminate | intuition].
    + apply String.eqb_neq in E. rewrite IH. intuition congruence.
Qed.

(** Assignment order does not matter when the source names are distinct:
    a source property wins, any other name keeps what the target had. *)
Lemma obj_get_extend (k : string) (src dst : obj) :
  NoDup (obj_keys src) ->
  obj_get k (extend dst src) =
    match obj_get k src with
    | Some v => Some v
    | None => obj_get k dst
    end.
Proof.
  unfold extend. revert dst.
  induction src as [|[k0 v0] src IH]; intros dst H; simpl; auto.
  inversion H as [|? ? Hn Hd]; subst.
  rewrite (IH _ Hd).
  destruct (String.eqb k k0) eqn:E.
  - apply String.eqb_eq in E. subst k0.
    apply obj_get_None in Hn. rewrite Hn. apply obj_get_put_same.
  - apply String.eqb_neq in E.
    destruct (obj_get k src); auto. now apply obj_get_put_other.
Qed.

End ObjectFacts.

(** ** Facts about the loops of the plugin *)

(** Case analysis on the outcome of one computation of a sequence. *)
Ltac step c :=
  let s := fresh "s" in
  let a := fresh "a" in
  let e := fresh "e" in
  destruct c as [s [a|e]]; cbv [bind ret]; try reflexivity.

Section LoopFacts.
Context {B : Type} {engine : Engine B}.
Variable cls : ModelClass B.

(** A declared entry is what the property read finds first. *)
Lemma lookup_declared (key : value) (vt : virtual B) :
  registered cls key = Some vt -> lookup cls key = Some (Declared vt).
Proof.
  unfold registered, lookup. destruct (virtuals cls) as [r|]; [|discriminate].
  now intros ->.
Qed.

Lemma is_virtual_declared (key : value) (vt : virtual B) :
  registered cls key = Some vt -> is_virtual cls key = true.
Proof. intros R. unfold is_virtual. now rewrite (lookup_declared key R). Qed.

(** Without a declared entry the property read finds an inherited
    member or nothing: whether it does depends on the name alone, once
    [virtuals] is defined. *)
Lemma is_virtual_undeclared (key : value) :
  registered cls key = None ->
  is_virtual cls key =
    match virtuals cls with
    | Some _ => inherited_name (to_key key)
    | None => false
    end.
Proof.
  unfold registered, is_virtual, lookup, inherited_name.
  destruct (virtuals cls) as [r|]; [|reflexivity].
  intros ->. destruct (String.eqb (to_key key) "__proto__"); [reflexivity|].
  now destruct (inherited_function (to_key key)).
Qed.

(** [setVirtual] by declared entry: the setter runs if there is one; any
    other key only gets the answer whether the property read found
    something. *)
Lemma setVirtual_cases (this : Self B) (v key : value) (s : Instance B) :
  setVirtual cls this v key s =
    match registered cls key with
    | Some vt =>
        match setter_of vt with
        | Some f => (f this v ;;; ret true) s
        | None => (s, Ok true)
        end
    | None => (s, Ok (is_virtual cls key))
    end.
Proof.
  unfold setVirtual, is_virtual, registered, lookup.
  destruct (virtuals cls) as [r|]; [|reflexivity].
  destruct (assoc (to_key key) r) as [vt|].
  - now destruct (setter_of vt).
  - destruct (String.eqb (to_key key) "__proto__"); [reflexivity|].
    now destruct (inherited_function (to_key key)).
Qed.

(** [setVirtual] answers whether the key is a virtual, after calling the
    setter if there is one and dropping what the setter returned. *)
Lemma setVirtual_run (this : Self B) (v : value) (k : string) (s : Instance B) :
  setVirtual cls this v (VStr k) s =
    (run_setters cls this [(k, v)] ;;; ret (is_virtual cls (VStr k))) s.
Proof.
  rewrite setVirtual_cases. simpl run_setters.
  destruct (registered cls (VStr k)) as [vt|] eqn:R; [|reflexivity].
  rewrite (is_virtual_declared _ R).
  destruct (setter_of vt) as [f|]; [|reflexivity].
  cbv [bind ret]. step (f this v s).
Qed.

Lemma run_setters_cons (this : Self B) (k : string) (v : value) (o : obj)
    (s : Instance B) :
  run_setters cls this ((k, v) :: o) s =
    match run_setters cls this [(k, v)] s with
    | (s1, Ok _) => run_setters cls this o s1
    | (s1, Throw e) => (s1, Throw e)
    end.
Proof.
  simpl. destruct (registered cls (VStr k)) as [vt|]; [|reflexivity].
  destruct (setter_of vt) as [f|]; [|reflexivity].
  cbv [bind ret]. step (f this v s).
Qed.

(** [_.omitBy(bag, setVirtual)] calls the setters in order and keeps the
    properties that are not virtuals. *)
Lemma omitBy_setVirtual (this : Self B) (bag : obj) (s : Instance B) :
  omitBy (fun v k => setVirtual cls this v (VStr k)) bag s =
    (run_setters cls this bag ;;; ret (non_virtuals cls bag)) s.
Proof.
  revert s. induction bag as [|[k v] bag IH]; intros s; [reflexivity|].
  simpl omitBy. unfold bind at 1. rewrite setVirtual_run.
  unfold bind at 1 3. rewrite (run_setters_cons this k v bag s).
  destruct (run_setters cls this [(k, v)] s) as [s1 [[]|e]]; [|reflexivity].
  cbv [ret]. unfold bind at 1. rewrite IH. cbv [bind ret].
  destruct (run_setters cls this bag s1) as [s2 [[]|e]]; [|reflexivity].
  unfold non_virtuals. simpl.
  now destruct (is_virtual cls (VStr k)).
Qed.

Lemma without_del (k : string) (ks : list string) (o : obj) :
  without ks (obj_del k o) = without (k :: ks) o.
Proof.
  unfold without, obj_del. induction o as [|[k0 v0] o IH]; simpl; auto.
  rewrite (String.eqb_sym k0 k).
  destruct (String.eqb k k0); simpl; rewrite IH; reflexivity.
Qed.

Lemma without_virtual_keys (o : obj) :
  without (virtual_keys cls o) o = non_virtuals cls o.
Proof.
  unfold without, non_virtuals. apply filter_ext_in.
  intros [k v] Hin. simpl. f_equal.
  unfold virtual_keys.
  destruct (is_virtual cls (VStr k)) eqn:E.
  - apply existsb_exists. exists k. split; [|apply String.eqb_refl].
    apply in_map_iff. exists (k, v). split; auto.
    apply filter_In. auto.
  - destruct (existsb (String.eqb k) _) eqn:X; auto.
    apply existsb_exists in X. destruct X as [k' [Hk' Heq]].
    apply String.eqb_eq in Heq. subst k'.
    apply in_map_iff in Hk'. destruct Hk' as [[k1 v1] [Hk1 Hf]].
    simpl in Hk1. subst k1. apply filter_In in Hf. simpl in Hf.
    destruct Hf as [_ Hf]. congruence.
Qed.

Lemma without_nil (o : obj) : without [] o = o.
Proof. unfold without. induction o as [|x o IH]; simpl; [reflexivity|now f_equal]. Qed.

Lemma each_loop (this : Self B) (todo acc : obj) (s : Instance B) :
  foldM (fun acc kv => strip_virtual cls this acc (snd kv) (VStr (fst kv)))
        todo acc s =
    (run_setters cls this todo ;;; ret (without (virtual_keys cls todo) acc)) s.
Proof.
  revert acc s. induction todo as [|[k v] todo IH]; intros acc s.
  - cbv [foldM run_setters bind ret virtual_keys filter map]. now rewrite without_nil.
  - simpl foldM. unfold bind at 1, strip_virtual at 1. simpl fst. simpl snd.
    unfold bind at 1. rewrite setVirtual_run.
    unfold bind at 1 2. rewrite (run_setters_cons this k v todo s).
    destruct (run_setters cls this [(k, v)] s) as [s1 [[]|e]]; [|reflexivity].
    cbv [ret]. rewrite IH. cbv [bind ret].
    destruct (run_setters cls this todo s1) as [s2 [[]|e]]; [|reflexivity].
    unfold virtual_keys. simpl filter. simpl to_key.
    destruct (is_virtual cls (VStr k)); [|reflexivity].
    simpl map. now rewrite without_del.
Qed.

(** On a payload that is not array-like, the patch loop calls the setters
    of the virtual properties in order and strips those properties. *)
Lemma each_plain (this : Self B) (attrs : obj) (s : Instance B) :
  array_like_length attrs = None ->
  each cls this attrs s =
    (run_setters cls this attrs ;;; ret (non_virtuals cls attrs)) s.
Proof.
  intros H. unfold each. rewrite H, each_loop.
  cbv [bind ret]. step (run_setters cls this attrs s).
  now rewrite without_virtual_keys.
Qed.

(** On a bag that uses none of the names inherited from
    [Object.prototype], what the property read finds is what was
    declared. *)
Lemma non_virtuals_undeclared (o : obj) :
  (forall k, In k (obj_keys o) -> inherited_name k = false) ->
  non_virtuals cls o = undeclared cls o.
Proof.
  intros H. unfold non_virtuals, undeclared. apply filter_ext_in.
  intros [k v] Hin. simpl.
  destruct (registered cls (VStr k)) as [vt|] eqn:R.
  - now rewrite (is_virtual_declared _ R).
  - rewrite (is_virtual_undeclared _ R). simpl to_key.
    rewrite (H k); [now destruct (virtuals cls)|].
    unfold obj_keys. apply in_map_iff. now exists (k, v).
Qed.

Lemma undeclared_get (k : string) (o : obj) :
  obj_get k (undeclared cls o) =
    match registered cls (VStr k) with
    | Some _ => None
    | None => obj_get k o
    end.
Proof.
  unfold undeclared. induction o as [|[k0 v0] o IH]; simpl.
  - now destruct (registered cls (VStr k)).
  - destruct (String.eqb k k0) eqn:E.
    + apply String.eqb_eq in E. subst k0.
      destruct (registered cls (VStr k)) eqn:V; simpl; auto.
      now rewrite String.eqb_refl.
    + destruct (registered cls (VStr k0)); simpl; rewrite ?E; auto.
Qed.

(** Stripping the virtuals leaves every other property as it was. *)
Lemma non_virtuals_get (k : string) (o : obj) :
  obj_get k (non_virtuals cls o) =
    if is_virtual cls (VStr k) then None else obj_get k o.
Proof.
  unfold non_virtuals. induction o as [|[k0 v0] o IH]; simpl.
  - now destruct (is_virtual cls (VStr k)).
  - destruct (String.eqb k k0) eqn:E.
    + apply String.eqb_eq in E. subst k0.
      destruct (is_virtual cls (VStr k)) eqn:V; simpl; auto.
      now rewrite String.eqb_refl.
    + destruct (is_virtual cls (VStr k0)); simpl; rewrite ?E; auto.
Qed.

Lemma assoc_In (k : string) (vt : virtual B) (r : list (string * virtual B)) :
  NoDup (map fst r) -> In (k, vt) r -> assoc k r = Some vt.
Proof.
  induction r as [|[k0 v0] r IH]; simpl; intros N H; [contradiction|].
  inversion N as [|? ? Hn Hd]; subst.
  destruct H as [H|H].
  - inversion H; subst. now rewrite String.eqb_refl.
  - destruct (String.eqb k k0) eqn:E; [|auto].
    apply String.eqb_eq in E. subst k0. exfalso. apply Hn.
    apply in_map_iff. now exists (k, vt).
Qed.

Lemma getVirtuals_loop (this : Self B) (params : value)
    (r : list (string * virtual B)) (acc : obj) (s : Instance B) :
  (forall k vt, In (k, vt) r -> registered cls (VStr k) = Some vt) ->
  foldM (fun attrs virtualName =>
           v <- getVirtual cls this (VStr virtualName)
                  [paramsForVirtual params virtualName] ;;
           ret (obj_put virtualName v attrs))
        (map fst r) acc s =
    eval_virtuals this params r acc s.
Proof.
  revert acc s. induction r as [|[k vt] r IH]; intros acc s H; [reflexivity|].
  simpl. unfold getVirtual.
  rewrite (lookup_declared _ (H k vt (or_introl eq_refl))).
  cbv [bind ret].
  step (getter_of vt this [paramsForVirtual params k] s).
  apply IH. intros k' vt' Hin. apply H. now right.
Qed.

(** With distinct names in the registry, [getVirtuals] applies every
    getter once, to the single argument [params[name]]. *)
Lemma getVirtuals_eval (this : Self B) (params : value)
    (r : list (string * virtual B)) (s : Instance B) :
  virtuals cls = Some r ->
  NoDup (map fst r) ->
  getVirtuals cls this params s = eval_virtuals this params r [] s.
Proof.
  intros V N. unfold getVirtuals. rewrite V.
  apply getVirtuals_loop. intros k vt Hin.
  unfold registered. rewrite V. simpl. now apply assoc_In.
Qed.

Lemma foldM_put_keys (f : string -> M (Instance B) value)
    (names : list string) (acc vs : obj) (s s' : Instance B) :
  foldM (fun attrs name => v <- f name ;; ret (obj_put name v attrs))
        names acc s = (s', Ok vs) ->
  NoDup (obj_keys acc) ->
  NoDup (obj_keys vs) /\
  forall k, In k (obj_keys vs) <-> In k (obj_keys acc) \/ In k names.
Proof.
  revert acc s. induction names as [|n names IH]; intros acc s H N.
  - cbv [foldM ret] in H. inversion H; subst. split; [assumption|].
    intros k. simpl. intuition.
  - simpl in H. cbv [bind ret] in H.
    destruct (f n s) as [s1 [v|e]]; [|discriminate].
    apply IH in H; [|now apply obj_put_NoDup].
    destruct H as [Hn Hk]. split; [assumption|].
    intros k. rewrite Hk, obj_keys_put. simpl. intuition.
Qed.

(** The object [getVirtuals] builds has one property per declared name. *)
Lemma getVirtuals_keys (this : Self B) (params : value) (vs : obj)
    (s s' : Instance B) :
  getVirtuals cls this params s = (s', Ok vs) ->
  NoDup (obj_keys vs) /\
  forall k, In k (obj_keys vs) <-> In k (virtual_names cls).
Proof.
  unfold getVirtuals, virtual_names. destruct (virtuals cls) as [r|].
  - intros H.
    apply (foldM_put_keys
             (fun name => getVirtual cls this (VStr name)
                            [paramsForVirtual params name])) in H;
      [|constructor].
    destruct H as [Hn Hk]. split; [assumption|].
    intros k. rewrite Hk. simpl. intuition.
  - intros H. cbv [ret] in H. inversion H; subst.
    split; [constructor | intros k; simpl; intuition].
Qed.

End LoopFacts.
(** ** The accessors, the serializer and the patch save *)

Section Accessors.

Context {B : Type} {base_model : BaseModel B} {engine : Engine B}.
Variable cls : ModelClass B.

(** C9.  A call [set(key, ...)] whose key is [null] or [undefined] returns
    the instance itself and has no effect: the instance is left as it was,
    so no setter ran and the base model was not asked to write anything,
    and nothing is thrown. *)
Theorem set_nullish_key (this : Self B) (arguments : list value)
    (s : Instance B) :
  is_nullish (nth 0 arguments VUndefined) = true ->
  set cls this arguments s = (s, Ok This).
Proof.
  intros H. unfold set. now rewrite H.
Qed.

(** [get] by what the property read [this.virtuals[attr]] finds: a
    declared virtual is computed by its getter; an inherited function is
    applied to the instance and the arguments; [__proto__] is a
    [TypeError]; only a name the read does not find goes to the base
    model's [get]. *)
Lemma get_dispatch (this : Self B) (arguments : list value)
    (s : Instance B) :
  get cls this arguments s =
    match lookup cls (nth 0 arguments VUndefined) with
    | Some (Declared vt) => getter_of vt this (tl arguments) s
    | Some (BuiltinFunction name) => builtin_apply name (tl arguments) s
    | Some PrototypeObject => (s, Throw TypeError)
    | None => lift (proto_get arguments) s
    end.
Proof.
  unfold get, is_virtual, getVirtual.
  destruct (lookup cls (nth 0 arguments VUndefined)) as [[vt|name|]|];
    reflexivity.
Qed.

(** C6.  A single-key write [set('v', x)] to a virtual without a setter
    is a silent no-op: it returns the instance, throws nothing and leaves
    the instance, hence the real attributes, as they were; a later
    [get('v')] is the getter's own computation. *)
Theorem set_readonly_virtual (this : Self B) (name : string)
    (vt : virtual B) (rest : list value) (s : Instance B) :
  registered cls (VStr name) = Some vt ->
  setter_of vt = None ->
  set cls this (VStr name :: rest) s = (s, Ok This) /\
  forall args s',
    get cls this (VStr name :: args) s' = getter_of vt this args s'.
Proof.
  intros R N. split.
  - unfold set. cbn [nth is_nullish]. cbv [bind get_state].
    rewrite setVirtual_cases. cbn [nth]. now rewrite R, N.
  - intros args s'. unfold get, is_virtual, getVirtual. simpl.
    now rewrite (lookup_declared cls _ R).
Qed.

(** Bag form [set({k1: v1, ...}, options)]: the properties are taken in
    order; a declared virtual with a setter has that setter called with
    its value and what the setter returns is dropped; every property
    whose name [this.virtuals[name]] finds, declared or inherited, is
    left out, and the others form the bag given to the base model's
    [set] (and copied into the capture buffer during a patch save). *)
Lemma set_bag_dispatch (this : Self B) (bag : obj) (rest : list value)
    (s : Instance B) :
  set cls this (VObj bag :: rest) s =
    match run_setters cls this bag s with
    | (s1, Ok _) =>
        lift (proto_set [VObj (non_virtuals cls bag); nth 1 rest VUndefined])
          (match patchAttributes s with
           | Some _ =>
               with_patch
                 (option_map (fun b => extend b (non_virtuals cls bag))
                    (patchAttributes s1)) s1
           | None => s1
           end)
    | (s1, Throw e) => (s1, Throw e)
    end.
Proof.
  unfold set. cbn [nth is_nullish]. cbv beta iota.
  unfold bind at 1. unfold get_state at 1.
  unfold bind at 1. rewrite omitBy_setVirtual.
  cbv [bind ret]. step (run_setters cls this bag s).
  destruct (patchAttributes s); reflexivity.
Qed.

(** While a capture buffer is present, a single-key write through [set]
    under a name that [this.virtuals[key]] does not find is recorded in
    the buffer and then forwarded to the base model's [set] all the
    same. *)
Lemma set_while_capturing (this : Self B) (arguments : list value)
    (buf : obj) (s : Instance B) :
  patchAttributes s = Some buf ->
  is_nullish (nth 0 arguments VUndefined) = false ->
  isObject (nth 0 arguments VUndefined) = false ->
  is_virtual cls (nth 0 arguments VUndefined) = false ->
  set cls this arguments s =
    lift (proto_set arguments)
      (with_patch
         (Some (obj_put (to_key (nth 0 arguments VUndefined))
                  (nth 1 arguments VUndefined) buf)) s).
Proof.
  intros P N O V. unfold set. rewrite N.
  unfold bind at 1. unfold get_state at 1. rewrite P.
  assert (R : registered cls (nth 0 arguments VUndefined) = None).
  { destruct (registered cls (nth 0 arguments VUndefined)) as [vt|] eqn:R;
      [|reflexivity].
    rewrite (is_virtual_declared cls _ R) in V. discriminate. }
  destruct (nth 0 arguments VUndefined) eqn:K; try discriminate;
    unfold bind at 1; rewrite setVirtual_cases, R, V;
    cbv [bind ret when buffer_put modify]; rewrite P; reflexivity.
Qed.

(** C8.  [toJSON(options)] with [options.omitNew] set on an instance that
    is new returns what the base model's [toJSON] produced, unmodified,
    whatever [options.virtuals] and the class default say. *)
Theorem toJSON_omitNew (this : Self B) (options : value)
    (s s1 : Instance B) (r : result obj) :
  lift (proto_toJSON options) s = (s1, r) ->
  truthy (prop options "omitNew") = true ->
  isNew (base s1) = true ->
  toJSON cls this options s = (s1, r).
Proof.
  intros L O N. unfold toJSON. unfold bind at 1. rewrite L.
  destruct r as [attrs|e]; [|reflexivity].
  cbv [bind get_state]. rewrite O, N.
  destruct options; try discriminate O. reflexivity.
Qed.


Lemma paramsForVirtual_options (options : value) (name : string) :
  paramsForVirtual (js_and options (prop options "virtualParams")) name =
    prop (prop options "virtualParams") name.
Proof.
  unfold paramsForVirtual, js_and.
  destruct options as [| |[]|n|str|o]; try reflexivity.
  - simpl. destruct (n =? 0); reflexivity.
  - simpl. destruct (String.eqb str ""); reflexivity.
  - simpl truthy. cbv iota.
    destruct (prop (VObj o) "virtualParams"); reflexivity.
Qed.

(** C5, as the code has it.  For a call [toJSON(options)] that the
    [omitNew] rule does not cut short, the virtuals are merged exactly
    when [options.virtuals] is strictly [true], or it is anything but
    strictly [false] (unset in particular) and [outputVirtuals] is on;
    [false] excludes them whatever the default.  When merged, every
    declared getter is applied to the single argument
    [options.virtualParams[name]] ([undefined] when not supplied), and its
    value is stored under the virtual's name, over a real attribute of
    that name. *)
Theorem toJSON_virtuals (this : Self B) (options : value)
    (s s1 : Instance B) (attrs : obj) :
  lift (proto_toJSON options) s = (s1, Ok attrs) ->
  truthy (prop options "omitNew") && isNew (base s1) = false ->
  toJSON cls this options s =
    (if merges_virtuals cls options
     then (vs <- getVirtuals cls this
                   (js_and options (prop options "virtualParams")) ;;
           ret (extend attrs vs)) s1
     else (s1, Ok attrs)) /\
  (merges_virtuals cls options = true <->
     prop options "virtuals" = VBool true \/
     (prop options "virtuals" <> VBool false /\ outputVirtuals cls = true)) /\
  (forall r s',
     virtuals cls = Some r -> NoDup (map fst r) ->
     getVirtuals cls this (js_and options (prop options "virtualParams")) s' =
       eval_virtuals this (js_and options (prop options "virtualParams"))
         r [] s') /\
  (forall name,
     paramsForVirtual (js_and options (prop options "virtualParams")) name =
       prop (prop options "virtualParams") name) /\
  (forall s' s2 vs k,
     getVirtuals cls this (js_and options (prop options "virtualParams")) s' =
       (s2, Ok vs) ->
     (In k (obj_keys vs) <-> In k (virtual_names cls)) /\
     obj_get k (extend attrs vs) =
       match obj_get k vs with
       | Some v => Some v
       | None => obj_get k attrs
       end).
Proof.
  intros L O. repeat split.
  - unfold toJSON. unfold bind at 1. rewrite L.
    unfold bind at 1. unfold get_state at 1.
    replace (truthy options && truthy (prop options "omitNew")
             && isNew (base s1)) with false.
    2:{ destruct (truthy (prop options "omitNew")) eqn:T.
        - simpl in O. rewrite O. now rewrite andb_false_r.
        - now rewrite andb_false_r. }
    unfold merges_virtuals, virtuals_option.
    destruct options as [| |[]|n|str|o]; simpl;
      try (destruct (outputVirtuals cls); reflexivity).
    + destruct (n =? 0); simpl; destruct (outputVirtuals cls); reflexivity.
    + destruct (String.eqb str ""); simpl;
        destruct (outputVirtuals cls); reflexivity.
    + destruct (obj_get "virtuals" o) as [[| |[]|n|str|o']|]; simpl;
        destruct (outputVirtuals cls); reflexivity.
  - unfold merges_virtuals, virtuals_option.
    destruct (prop options "virtuals") as [| |[]|n|str|o'];
      destruct (outputVirtuals cls); simpl; intros H;
      first [ now left | right; split; [discriminate | reflexivity]
            | discriminate ].
  - unfold merges_virtuals, virtuals_option.
    intros [H|[H1 H2]].
    + now rewrite H.
    + rewrite H2.
      destruct (prop options "virtuals") as [| |[]|n|str|o'];
        simpl; congruence.
  - intros V N. now apply getVirtuals_eval.
  - apply paramsForVirtual_options.
  - apply getVirtuals_keys in H. apply H.
  - apply getVirtuals_keys in H. apply H.
  - apply getVirtuals_keys in H. apply obj_get_extend. apply H.
Qed.

(** C10.  Each of [keys], [values], [toPairs], [invert], [pick] and [omit]
    applies the Lodash function of that name to the real attributes merged
    with the value of every declared virtual, followed by the caller's
    arguments; in the merged object a virtual's value stands over a real
    attribute of the same name, and its names are the real attribute names
    together with the virtual names. *)
Theorem mixin_merged {R : Type} (lodash : modelMethod -> list value -> R)
    (method : modelMethod) (this : Self B) (arguments : list value)
    (s s1 : Instance B) (vs : obj) :
  getVirtuals cls this VUndefined s = (s1, Ok vs) ->
  NoDup (obj_keys (attributes (base s1))) ->
  In method modelMethods /\
  mixin cls lodash method this arguments s =
    (s1, Ok (lodash method
               (VObj (extend (extend [] (attributes (base s1))) vs)
                  :: arguments))) /\
  forall k,
    obj_get k (extend (extend [] (attributes (base s1))) vs) =
      match obj_get k vs with
      | Some v => Some v
      | None => obj_get k (attributes (base s1))
      end /\
    (In k (obj_keys (extend (extend [] (attributes (base s1))) vs)) <->
       In k (obj_keys (attributes (base s1))) \/ In k (virtual_names cls)).
Proof.
  intros G N. split; [|split].
  - unfold modelMethods. destruct method; simpl; auto 7.
  - unfold mixin. cbv [bind get_state ret]. now rewrite G.
  - intros k. pose proof G as G'. apply getVirtuals_keys in G'.
    destruct G' as [Nv Kv]. split.
    + rewrite (obj_get_extend k vs (extend [] (attributes (base s1))) Nv).
      destruct (obj_get k vs); [reflexivity|].
      rewrite (obj_get_extend k (attributes (base s1)) [] N).
      now destruct (obj_get k (attributes (base s1))).
    + rewrite !obj_keys_extend, Kv. simpl. intuition.
Qed.


Lemma is_update_eq (m : value) : is_update m = true -> m = VStr "update".
Proof.
  destruct m; try discriminate. simpl. intros H.
  apply String.eqb_eq in H. now subst.
Qed.

Lemma prop_put_same (k : string) (v : value) (o : obj) :
  prop (VObj (obj_put k v o)) k = v.
Proof. unfold prop. now rewrite obj_get_put_same. Qed.

Lemma prop_put_other (k k' : string) (v : value) (o : obj) :
  k <> k' -> prop (VObj (obj_put k' v o)) k = prop (VObj o) k.
Proof. intros N. unfold prop. now rewrite obj_get_put_other. Qed.

(** The patch branch of [save], entered exactly on an update with a
    truthy [patch] option. *)
Lemma save_patch_branch (this : Self B) (key value options : value)
    (s : Instance B) (attrs o : obj) :
  save_arguments key value options = (attrs, VObj o) ->
  is_update (saveMethod (base s) (VObj o)) = true ->
  truthy (prop (VObj o) "patch") = true ->
  save cls this key value options s =
    match each cls this attrs (with_patch (Some []) s) with
    | (s1, Ok attrs') =>
        lift (proto_save
                (VObj (extend_opt attrs' (patchAttributes s1)))
                (VObj (obj_put "method" (VStr "update") o)))
          (with_patch None s1)
    | (s1, Throw e) => (with_patch None s1, Ok (Rejected e))
    end.
Proof.
  intros A U P. unfold save. rewrite A.
  unfold bind at 1. unfold get_state at 1.
  rewrite prop_put_same, U.
  rewrite prop_put_other by discriminate. rewrite P.
  apply is_update_eq in U. rewrite U.
  cbv [bind modify try_finally try_catch get_state ret andb].
  step (each cls this attrs (with_patch (Some []) s)).
Qed.

(** C1, as the code has it.  A save that resolves to the update method
    with a truthy [patch] option, on a payload that is not array-like,
    uses none of the names inherited from [Object.prototype] and whose
    setters all return: every payload property that is a declared
    virtual has its setter (if it has one) called with the payload value
    and is removed, the capture buffer is then merged into what is left,
    and the base model's [save] receives that payload together with a
    copy of the caller's options in which [method] is set to
    ['update']. *)
Theorem save_patch (this : Self B) (key value options : value)
    (s s1 : Instance B) (attrs o : obj) :
  save_arguments key value options = (attrs, VObj o) ->
  is_update (saveMethod (base s) (VObj o)) = true ->
  truthy (prop (VObj o) "patch") = true ->
  array_like_length attrs = None ->
  (forall k, In k (obj_keys attrs) -> inherited_name k = false) ->
  run_setters cls this attrs (with_patch (Some []) s) = (s1, Ok tt) ->
  save cls this key value options s =
    lift (proto_save
            (VObj (extend_opt (undeclared cls attrs) (patchAttributes s1)))
            (VObj (obj_put "method" (VStr "update") o)))
      (with_patch None s1) /\
  forall k,
    obj_get k (undeclared cls attrs) =
      match registered cls (VStr k) with
      | Some _ => None
      | None => obj_get k attrs
      end.
Proof.
  intros A U P L I R. split; [|intros k; apply undeclared_get].
  erewrite save_patch_branch by eassumption.
  rewrite each_plain by assumption.
  cbv [bind ret]. rewrite R.
  now rewrite (non_virtuals_undeclared cls attrs I).
Qed.

(** [save] never reads the buffer an earlier call may have left. *)
Lemma save_ignores_residue (this : Self B) (key value options : value)
    (p : option obj) (s : Instance B) :
  snd (save cls this key value options (with_patch p s)) =
    snd (save cls this key value options s) /\
  base (fst (save cls this key value options (with_patch p s))) =
    base (fst (save cls this key value options s)).
Proof.
  unfold save. destruct (save_arguments key value options) as [attrs opts].
  cbv [bind get_state modify try_finally try_catch ret throw].
  change (base (with_patch p s)) with (base s).
  change (with_patch (Some []) (with_patch p s)) with (with_patch (Some []) s).
  destruct opts as [| |b|n|str|o]; try (split; reflexivity).
  match goal with |- context [if ?c then _ else _] => destruct c end.
  - split; reflexivity.
  - cbv [lift]. change (base (with_patch p s)) with (base s).
    destruct (proto_save (VObj attrs) _ (base s)) as [b r]. split; reflexivity.
Qed.

(** C3.  When the capture loop of a patch save throws, [save] returns a
    rejected promise carrying that error and stops there: the base model's
    [save] is not reached, the buffer is removed as on normal completion,
    and no later [save] on the instance depends on a buffer left behind. *)
Theorem save_setter_failure (this : Self B) (key value options : value)
    (s s1 : Instance B) (attrs o : obj) (e : exn) :
  save_arguments key value options = (attrs, VObj o) ->
  is_update (saveMethod (base s) (VObj o)) = true ->
  truthy (prop (VObj o) "patch") = true ->
  each cls this attrs (with_patch (Some []) s) = (s1, Throw e) ->
  save cls this key value options s = (with_patch None s1, Ok (Rejected e)) /\
  patchAttributes (with_patch None s1) = None /\
  forall key' value' options' p,
    snd (save cls this key' value' options' (with_patch p s1)) =
      snd (save cls this key' value' options' (with_patch None s1)) /\
    base (fst (save cls this key' value' options' (with_patch p s1))) =
      base (fst (save cls this key' value' options' (with_patch None s1))).
Proof.
  intros A U P E. repeat split.
  - erewrite save_patch_branch by eassumption. now rewrite E.
  - destruct (save_ignores_residue this key' value' options' p s1) as [H1 _].
    destruct (save_ignores_residue this key' value' options' None s1) as [H2 _].
    congruence.
  - destruct (save_ignores_residue this key' value' options' p s1) as [_ H1].
    destruct (save_ignores_residue this key' value' options' None s1) as [_ H2].
    congruence.
Qed.

End Accessors.

(** A patch save whose capture loop throws does not depend on the base
    model beyond [saveMethod]: whatever [proto.save] (or any other base
    operation) is, the outcome is the same, so [save] itself ran none of
    them. *)
Lemma save_failure_any_base {B : Type} (m1 m2 : BaseModel B)
    (cls : ModelClass B) (this : Self B) (key value options : value)
    (s s1 : Instance B) (attrs o : obj) (e : exn) :
  save_arguments key value options = (attrs, VObj o) ->
  is_update (@saveMethod B m1 (base s) (VObj o)) = true ->
  is_update (@saveMethod B m2 (base s) (VObj o)) = true ->
  truthy (prop (VObj o) "patch") = true ->
  each cls this attrs (with_patch (Some []) s) = (s1, Throw e) ->
  @save B m1 cls this key value options s =
    @save B m2 cls this key value options s.
Proof.
  intros A U1 U2 P E.
  erewrite (@save_patch_branch B m1) by eassumption.
  erewrite (@save_patch_branch B m2) by eassumption.
  now rewrite E.
Qed.

(** ** Runs on the reference base model *)

Import Store.

(** [set(null, 1)] in the middle of a patch save. *)
Lemma set_nullish_key_witness :
  set Person (self Person depth) [VNull; VNum 1] capturing = (capturing, Ok This).
Proof. apply set_nullish_key. reflexivity. Defined.

(** [set('initials', 5)] on a read-only virtual, then [get('initials')]. *)
Lemma set_readonly_virtual_witness :
  registered Person (VStr "initials") = Some initials /\
  set Person (self Person depth) [VStr "initials"; VNum 5] ada = (ada, Ok This) /\
  get Person (self Person depth) [VStr "initials"] ada = (ada, Ok (VStr "AL")).
Proof.
  split; [reflexivity|].
  destruct (set_readonly_virtual Person (self Person depth) "initials"
              [VNum 5] ada (vt := initials) eq_refl eq_refl) as [H1 H2].
  split; [exact H1|]. rewrite H2. reflexivity.
Defined.

(** [set('first', 'Ada')] with an empty capture buffer. *)
Lemma set_while_capturing_witness :
  patchAttributes capturing = Some [] /\
  set Person (self Person depth) [VStr "first"; VStr "Ada"] capturing =
    lift (proto_set [VStr "first"; VStr "Ada"])
      (with_patch (Some [("first", VStr "Ada")]) capturing).
Proof.
  split; [reflexivity|].
  apply (set_while_capturing Person (self Person depth)
           [VStr "first"; VStr "Ada"] capturing (buf := []));
    reflexivity.
Defined.

(** [toJSON({omitNew: true, virtuals: true})] on a record not yet persisted. *)
Lemma toJSON_omitNew_witness :
  toJSON Person (self Person depth)
    (VObj [("omitNew", VBool true); ("virtuals", VBool true)]) draft =
    (draft, Ok [("first", VStr "A"); ("last", VStr "L")]).
Proof.
  apply toJSON_omitNew; reflexivity.
Defined.

(** [toJSON({virtuals: true})] on a class whose default is off. *)
Lemma toJSON_virtuals_witness :
  toJSON QuietPerson (self QuietPerson depth)
    (VObj [("virtuals", VBool true)]) ada =
    (ada, Ok [("id", VNum 1); ("first", VStr "A"); ("last", VStr "L");
              ("fullName", VStr "A L"); ("initials", VStr "AL");
              ("locked", VBool true); ("v", VUndefined)]).
Proof.
  assert (L : lift (proto_toJSON (VObj [("virtuals", VBool true)])) ada =
              (ada, Ok [("id", VNum 1); ("first", VStr "A");
                        ("last", VStr "L")])) by reflexivity.
  assert (O : truthy (prop (VObj [("virtuals", VBool true)]) "omitNew")
              && isNew (base ada) = false) by reflexivity.
  rewrite (proj1 (toJSON_virtuals QuietPerson (self QuietPerson depth) _ _ L O)).
  reflexivity.
Defined.

(** [keys()] on a fetched record. *)
Lemma mixin_merged_witness :
  mixin Person (fun m args => (m, args)) keys (self Person depth) [] ada =
    (ada, Ok (keys,
              [VObj [("id", VNum 1); ("first", VStr "A"); ("last", VStr "L");
                     ("fullName", VStr "A L"); ("initials", VStr "AL");
                     ("locked", VBool true); ("v", VUndefined)]])).
Proof.
  assert (G : getVirtuals Person (self Person depth) VUndefined ada =
              (ada, Ok [("fullName", VStr "A L"); ("initials", VStr "AL");
                        ("locked", VBool true); ("v", VUndefined)]))
    by reflexivity.
  assert (N : NoDup (obj_keys (attributes (base ada)))).
  { simpl. repeat constructor; simpl; intuition discriminate. }
  rewrite (proj1 (proj2 (mixin_merged Person (fun m args => (m, args)) keys
                           (self Person depth) [] ada G N))).
  reflexivity.
Defined.

(** [save({fullName: 'Ada Lovelace'}, {patch: true})] on a fetched record. *)
Lemma save_patch_witness :
  save Person (self Person depth)
    (VObj [("fullName", VStr "Ada Lovelace")]) (VObj [("patch", VBool true)])
    VUndefined ada =
    lift (proto_save
            (VObj [("first", VStr "Ada"); ("last", VStr "Lovelace")])
            (VObj [("patch", VBool true); ("method", VStr "update")]))
      (fst (run_setters Person (self Person depth)
              [("fullName", VStr "Ada Lovelace")] ada)).
Proof.
  assert (R : run_setters Person (self Person depth)
                [("fullName", VStr "Ada Lovelace")]
                (with_patch (Some []) ada) =
              (with_patch (Some [("first", VStr "Ada");
                                 ("last", VStr "Lovelace")])
                 (fst (run_setters Person (self Person depth)
                         [("fullName", VStr "Ada Lovelace")] ada)),
               Ok tt)) by reflexivity.
  assert (A : save_arguments (VObj [("fullName", VStr "Ada Lovelace")])
                (VObj [("patch", VBool true)]) VUndefined =
              ([("fullName", VStr "Ada Lovelace")],
               VObj [("patch", VBool true)])) by reflexivity.
  assert (U : is_update (saveMethod (base ada) (VObj [("patch", VBool true)]))
              = true) by reflexivity.
  assert (P : truthy (prop (VObj [("patch", VBool true)]) "patch") = true)
    by reflexivity.
  assert (L : array_like_length [("fullName", VStr "Ada Lovelace")] = None)
    by reflexivity.
  assert (I : forall k, In k (obj_keys [("fullName", VStr "Ada Lovelace")]) ->
                        inherited_name k = false).
  { intros k [E|[]]. subst k. reflexivity. }
  rewrite (proj1 (save_patch Person (self Person depth) _ _ _ ada
                    A U P L I R)).
  reflexivity.
Defined.

(** A patch save whose first virtual has a throwing setter. *)
Lemma save_setter_failure_witness :
  save Person (self Person depth)
    (VObj [("locked", VStr "boom"); ("first", VStr "x")])
    (VObj [("patch", VBool true)]) VUndefined ada =
    (ada, Ok (Rejected (Thrown (VStr "boom")))).
Proof.
  assert (A : save_arguments
                (VObj [("locked", VStr "boom"); ("first", VStr "x")])
                (VObj [("patch", VBool true)]) VUndefined =
              ([("locked", VStr "boom"); ("first", VStr "x")],
               VObj [("patch", VBool true)])) by reflexivity.
  assert (E : each Person (self Person depth)
                [("locked", VStr "boom"); ("first", VStr "x")]
                (with_patch (Some []) ada) =
              (capturing, Throw (Thrown (VStr "boom")))) by reflexivity.
  assert (U : is_update (saveMethod (base ada) (VObj [("patch", VBool true)]))
              = true) by reflexivity.
  assert (P : truthy (prop (VObj [("patch", VBool true)]) "patch") = true)
    by reflexivity.
  rewrite (proj1 (save_setter_failure Person (self Person depth) _ _ _ ada A
                    U P E)).
  reflexivity.
Defined.

(** The options the base model's [save] receives in the scenario of C1
    are not the caller's [{patch: true}]: no such call was made. *)
Lemma save_patch_original_options_counterexample :
  ~ In (CallSave (VObj [("first", VStr "Ada"); ("last", VStr "Lovelace")])
          (VObj [("patch", VBool true)]))
       (calls (base (fst (save Person (self Person depth)
                            (VObj [("fullName", VStr "Ada Lovelace")])
                            (VObj [("patch", VBool true)]) VUndefined ada)))).
Proof.
  simpl. intros [H|[H|[H|[]]]]; discriminate H.
Qed.

(** C2.  The specification has a write made through [set] during the capture land
    in the buffer and not in the live attributes.  On [set('first',
    'Ada')] with an empty capture buffer the code does both: the buffer
    receives the write, the base model's [set] is called with the same
    arguments, and the live attributes hold the new value before any
    merge. *)
Theorem set_capturing_writes_live :
  patchAttributes capturing = Some [] /\
  set Person (self Person depth) [VStr "first"; VStr "Ada"] capturing =
    ({| base :=
          {| row_attributes := [("id", VNum 1); ("first", VStr "Ada");
                                ("last", VStr "L")];
             row_persisted := true;
             calls := [CallSet [VStr "first"; VStr "Ada"]] |};
        patchAttributes := Some [("first", VStr "Ada")] |},
     Ok This) /\
  (attributes (base (fst (set Person (self Person depth)
                            [VStr "first"; VStr "Ada"] capturing))) <>
     attributes (base capturing)).
Proof.
  split; [reflexivity|]. split; [reflexivity|]. simpl. discriminate.
Qed.

(** [virtuals: true] does not merge the virtuals on a new record under
    [omitNew]; [virtuals: 0], neither [true] nor unset, merges them when
    the class default is on. *)
Lemma toJSON_virtuals_counterexample :
  (prop (VObj [("virtuals", VBool true); ("omitNew", VBool true)]) "virtuals"
     = VBool true /\
  toJSON Person (self Person depth)
     (VObj [("virtuals", VBool true); ("omitNew", VBool true)]) draft =
     (draft, Ok [("first", VStr "A"); ("last", VStr "L")])) /\
  (prop (VObj [("virtuals", VNum 0)]) "virtuals" <> VBool true /\
  prop (VObj [("virtuals", VNum 0)]) "virtuals" <> VUndefined /\
  outputVirtuals Person = true /\
  exists out,
     toJSON Person (self Person depth) (VObj [("virtuals", VNum 0)]) ada =
       (ada, Ok out) /\
  obj_get "fullName" out = Some (VStr "A L")).
Proof.
  repeat split; try discriminate.
  eexists. split; reflexivity.
Qed.
(** C7.  The specification sends every name that is not a registered virtual to
    the base model's [get], never with an error.  On a class whose
    [virtuals] is an object literal the code does otherwise for the names
    that object inherits: [get('toString')] applies
    [Object.prototype.toString] to the instance and the base model (which
    would answer [undefined] here) is not asked; [get('__proto__')]
    throws a [TypeError]. *)
Theorem get_inherited_name :
  registered Person (VStr "toString") = None /\
  registered Person (VStr "__proto__") = None /\
  lift (proto_get [VStr "toString"]) ada = (ada, Ok VUndefined) /\
  get Person (self Person depth) [VStr "toString"] ada =
    (ada, Ok (VStr "[object Object]")) /\
  get Person (self Person depth) [VStr "__proto__"] ada =
    (ada, Throw TypeError).
Proof. repeat split. Qed.

(** C4.  The specification hands exactly the keys that are not virtuals to the
    base model's [set].  On [set({constructor: 5, age: 3})] the code
    leaves [constructor] out although no virtual of that name is
    declared: the base model receives [{age: 3}] alone, and no error is
    raised. *)
Theorem set_bag_inherited_name :
  registered Person (VStr "constructor") = None /\
  set Person (self Person depth)
    [VObj [("constructor", VNum 5); ("age", VNum 3)]] ada =
    ({| base :=
          {| row_attributes := [("id", VNum 1); ("first", VStr "A");
                                ("last", VStr "L"); ("age", VNum 3)];
             row_persisted := true;
             calls := [CallSet [VObj [("age", VNum 3)]; VUndefined]] |};
        patchAttributes := None |},
     Ok This).
Proof. split; reflexivity. Qed.

(** A virtual stands before a real attribute of its name, and a name
    nobody declared is the base model's business. *)
Example get_precedence_run :
  let shadowed :=
    {| base := {| row_attributes := [("initials", VStr "XX")];
                  row_persisted := true;
                  calls := [] |};
       patchAttributes := None |} in
  get Person (self Person depth) [VStr "initials"] shadowed =
    (shadowed, Ok (VStr "AL")) /\
  get Person (self Person depth) [VStr "nickname"] shadowed =
    (shadowed, Ok VUndefined).
Proof. split; reflexivity. Qed.

(** The scenario of C1 in full: the two writes of the setter reach the base
    model's [set] and the live attributes, then the base model's [save]
    receives first and last name, never [fullName], with [method] filled
    in; the buffer is gone afterwards. *)
Example save_fullName_run :
  save Person (self Person depth)
    (VObj [("fullName", VStr "Ada Lovelace")]) (VObj [("patch", VBool true)])
    VUndefined ada =
    ({| base :=
          {| row_attributes := [("id", VNum 1); ("first", VStr "Ada");
                                ("last", VStr "Lovelace")];
             row_persisted := true;
             calls :=
               [CallSet [VStr "first"; VStr "Ada"];
                CallSet [VStr "last"; VStr "Lovelace"];
                CallSave
                  (VObj [("first", VStr "Ada"); ("last", VStr "Lovelace")])
                  (VObj [("patch", VBool true); ("method", VStr "update")])] |};
        patchAttributes := None |},
     Ok (Resolved (VObj [("first", VStr "Ada"); ("last", VStr "Lovelace")]))).
Proof. reflexivity. Qed.

(** The same call on a record not yet persisted is an insert: no capture,
    the payload goes through as given. *)
Example save_fullName_insert_run :
  calls (base (fst (save Person (self Person depth)
                      (VObj [("fullName", VStr "Ada Lovelace")])
                      (VObj [("patch", VBool true)]) VUndefined draft))) =
    [CallSave (VObj [("fullName", VStr "Ada Lovelace")])
       (VObj [("patch", VBool true); ("method", VStr "insert")])].
Proof. reflexivity. Qed.

(** A payload with a numeric [length] is walked by index: with
    [length: 0] no property is visited and [fullName] stays in the payload
    handed to the base model. *)
Example save_array_like_payload_run :
  calls (base (fst (save Person (self Person depth)
                      (VObj [("fullName", VStr "Ada Lovelace");
                             ("length", VNum 0)])
                      (VObj [("patch", VBool true)]) VUndefined ada))) =
    [CallSave (VObj [("fullName", VStr "Ada Lovelace"); ("length", VNum 0)])
       (VObj [("patch", VBool true); ("method", VStr "update")])].
Proof. reflexivity. Qed.

(** After the failed patch save, a patch save on the same instance goes
    through as usual. *)
Example save_after_failure_run :
  let failed :=
    fst (save Person (self Person depth) (VObj [("locked", VStr "boom")])
           (VObj [("patch", VBool true)]) VUndefined ada) in
  patchAttributes failed = None /\
  calls (base failed) = [] /\
  calls (base (fst (save Person (self Person depth)
                      (VObj [("fullName", VStr "Ada Lovelace")])
                      (VObj [("patch", VBool true)]) VUndefined failed))) =
    [CallSet [VStr "first"; VStr "Ada"];
     CallSet [VStr "last"; VStr "Lovelace"];
     CallSave (VObj [("first", VStr "Ada"); ("last", VStr "Lovelace")])
       (VObj [("patch", VBool true); ("method", VStr "update")])].
Proof. repeat split. Qed.

(** [set({v: 5, age: 36})]: the setter of [v] runs once, with 5 (its one
    write is the first call the base model sees), and the bag the base
    model receives has [age] only. *)
Example set_bag_run :
  calls (base (fst (set Person (self Person depth)
                      [VObj [("v", VNum 5); ("age", VNum 36)]] ada))) =
    [CallSet [VStr "seen"; VNum 5];
     CallSet [VObj [("age", VNum 36)]; VUndefined]].
Proof. reflexivity. Qed.

(** With no stack left for the setter's own call to [set], the engine's
    error is turned into a rejection like any other. *)
Example save_out_of_stack_run :
  save Person (self Person 0)
    (VObj [("fullName", VStr "Ada Lovelace")]) (VObj [("patch", VBool true)])
    VUndefined ada =
    (ada, Ok (Rejected RangeError)).
Proof. reflexivity. Qed.

(** ** Further properties of the plugin *)

Section Further.
Context {B : Type} {base_model : BaseModel B} {engine : Engine B}.
Variable cls : ModelClass B.

(** The base model never touches [patchAttributes]. *)
Lemma lift_patchAttributes {A : Type} (c : M B A) (s : Instance B) :
  patchAttributes (fst (lift c s)) = patchAttributes s.
Proof. unfold lift. now destruct (c (base s)). Qed.

(** One unfolding of [save] on object options. *)
Lemma save_on_object_options (this : Self B) (key value options : value)
    (s : Instance B) (attrs o : obj) :
  save_arguments key value options = (attrs, VObj o) ->
  is_update (saveMethod (base s) (VObj o)) && truthy (prop (VObj o) "patch")
    = false ->
  save cls this key value options s =
    lift (proto_save (VObj attrs)
            (VObj (obj_put "method" (saveMethod (base s) (VObj o)) o))) s.
Proof.
  intros A C. unfold save. rewrite A.
  unfold bind at 1. unfold get_state at 1.
  rewrite prop_put_same. rewrite prop_put_other by discriminate.
  now rewrite C.
Qed.

(** X1.  A save that is not an update with a truthy [patch] option (an
    insert, or a full update) hands the payload as it is, virtual
    properties included, to the base model's [save], with [method] filled
    in; no setter runs and [patchAttributes] is left as it was. *)
Theorem save_without_patch (this : Self B) (key value options : value)
    (s : Instance B) (attrs o : obj) :
  save_arguments key value options = (attrs, VObj o) ->
  is_update (saveMethod (base s) (VObj o)) && truthy (prop (VObj o) "patch")
    = false ->
  save cls this key value options s =
    lift (proto_save (VObj attrs)
            (VObj (obj_put "method" (saveMethod (base s) (VObj o)) o))) s /\
  patchAttributes (fst (save cls this key value options s)) =
    patchAttributes s.
Proof.
  intros A C. rewrite (save_on_object_options this _ _ _ s A C).
  split; [reflexivity | apply lift_patchAttributes].
Qed.



(** X3.  When the options given to [save] (second argument in bag form,
    third in key form) are a truthy primitive, the assignment of
    [options.method] throws a [TypeError] in strict mode: [save] throws
    at once, leaves the instance alone and hands nothing to the base
    model. *)
Theorem save_primitive_options (this : Self B) (key value options : JS.value)
    (s : Instance B) :
  let given := if is_nullish key || typeof_object key then value else options in
  truthy given = true -> isObject given = false ->
  save cls this key value options s = (s, Throw TypeError).
Proof.
  intros given T O. unfold save, save_arguments. subst given.
  destruct (is_nullish key || typeof_object key).
  - unfold js_or, clone. rewrite T.
    destruct value; try discriminate; reflexivity.
  - rewrite T. unfold clone.
    destruct options; try discriminate; reflexivity.
Qed.

(** X4.  After a patch save [patchAttributes] is gone, however the call
    ended (completion, a throwing setter, a throwing or rejecting base
    save) and whatever the payload and the instance were, a buffer left
    by someone else included. *)
Theorem save_patch_releases_buffer (this : Self B)
    (key value options : JS.value) (s : Instance B) (attrs o : obj) :
  save_arguments key value options = (attrs, VObj o) ->
  is_update (saveMethod (base s) (VObj o)) = true ->
  truthy (prop (VObj o) "patch") = true ->
  patchAttributes (fst (save cls this key value options s)) = None.
Proof.
  intros A U P. erewrite save_patch_branch by eassumption.
  destruct (each cls this attrs (with_patch (Some []) s)) as [s1 [attrs'|e]].
  - now rewrite lift_patchAttributes.
  - reflexivity.
Qed.

(** A loop whose every step finds no virtual leaves the payload alone. *)
Lemma strip_loop_idle {X : Type} (this : Self B) (f g : obj -> X -> value)
    (xs : list X) (acc : obj) (s : Instance B) :
  (forall a x, In x xs -> is_virtual cls (g a x) = false) ->
  foldM (fun a x => strip_virtual cls this a (f a x) (g a x)) xs acc s =
    (s, Ok acc).
Proof.
  revert acc. induction xs as [|x xs IH]; intros acc H; [reflexivity|].
  simpl foldM. unfold bind at 1, strip_virtual at 1, setVirtual at 1.
  specialize (H acc x (or_introl eq_refl)) as Hx.
  unfold is_virtual in Hx.
  destruct (lookup cls (g acc x)); [discriminate|].
  cbv [bind ret]. apply IH. intros a y Hy. apply H. now right.
Qed.

(** An array-like payload none of whose indexes names a virtual goes
    through the patch loop untouched. *)
Lemma each_array_like (this : Self B) (attrs : obj) (n : Z) (s : Instance B) :
  array_like_length attrs = Some n ->
  (forall i, 0 <= i < n -> is_virtual cls (VNum i) = false) ->
  each cls this attrs s = (s, Ok attrs).
Proof.
  intros L H. unfold each. rewrite L.
  apply (strip_loop_idle this
           (fun acc index => prop (VObj acc) (to_key (VNum (Z.of_nat index))))
           (fun _ index => VNum (Z.of_nat index))).
  intros _ i Hi. apply H. apply in_seq in Hi. lia.
Qed.

(** X5.  A patch save whose payload has a valid numeric [length] is
    walked by index: when no virtual is named by an index below that
    length, no setter is called and the whole payload, virtual properties
    included, reaches the base model's [save]. *)
Theorem save_array_like_payload (this : Self B)
    (key value options : JS.value) (s : Instance B) (attrs o : obj) (n : Z) :
  save_arguments key value options = (attrs, VObj o) ->
  is_update (saveMethod (base s) (VObj o)) = true ->
  truthy (prop (VObj o) "patch") = true ->
  array_like_length attrs = Some n ->
  (forall i, 0 <= i < n -> is_virtual cls (VNum i) = false) ->
  save cls this key value options s =
    lift (proto_save (VObj attrs) (VObj (obj_put "method" (VStr "update") o)))
      (with_patch None s).
Proof.
  intros A U P L H. erewrite save_patch_branch by eassumption.
  erewrite each_array_like by eassumption. reflexivity.
Qed.

(** A bag without virtual properties triggers no setter and loses
    nothing. *)
Lemma run_setters_idle (this : Self B) (attrs : obj) (s : Instance B) :
  (forall k v, In (k, v) attrs -> is_virtual cls (VStr k) = false) ->
  run_setters cls this attrs s = (s, Ok tt) /\ non_virtuals cls attrs = attrs.
Proof.
  induction attrs as [|[k v] attrs IH]; intros H; [split; reflexivity|].
  pose proof (H k v (or_introl eq_refl)) as Hk.
  destruct IH as [IH1 IH2]; [intros k' v' Hin; apply (H k' v'); now right|].
  split.
  - simpl. destruct (registered cls (VStr k)) as [vt|] eqn:R; [|exact IH1].
    rewrite (is_virtual_declared cls _ R) in Hk. discriminate.
  - unfold non_virtuals in *. simpl. rewrite Hk. simpl. now rewrite IH2.
Qed.

(** X6.  A patch save whose payload (not array-like) uses no name that
    [this.virtuals[name]] finds, declared or inherited from
    [Object.prototype], calls no setter and hands the payload unchanged
    to the base model's [save]. *)
Theorem save_patch_real_attributes (this : Self B)
    (key value options : JS.value) (s : Instance B) (attrs o : obj) :
  save_arguments key value options = (attrs, VObj o) ->
  is_update (saveMethod (base s) (VObj o)) = true ->
  truthy (prop (VObj o) "patch") = true ->
  array_like_length attrs = None ->
  (forall k v, In (k, v) attrs -> is_virtual cls (VStr k) = false) ->
  save cls this key value options s =
    lift (proto_save (VObj attrs) (VObj (obj_put "method" (VStr "update") o)))
      (with_patch None s).
Proof.
  intros A U P L H. erewrite save_patch_branch by eassumption.
  rewrite each_plain by assumption.
  destruct (run_setters_idle this attrs (with_patch (Some []) s) H) as [R N].
  cbv [bind ret]. rewrite R, N. reflexivity.
Qed.

(** X7.  In the payload a patch save hands to the base model, what the
    setters put in the capture buffer stands over what the caller gave
    for the same name; a name absent from the buffer keeps the caller's
    value unless [this.virtuals[name]] finds it (a declared virtual or a
    name inherited from [Object.prototype]), in which case it is
    absent. *)
Theorem save_patch_buffer_wins (this : Self B)
    (key value options : JS.value) (s s1 : Instance B) (attrs o buf : obj) :
  save_arguments key value options = (attrs, VObj o) ->
  is_update (saveMethod (base s) (VObj o)) = true ->
  truthy (prop (VObj o) "patch") = true ->
  array_like_length attrs = None ->
  run_setters cls this attrs (with_patch (Some []) s) = (s1, Ok tt) ->
  patchAttributes s1 = Some buf ->
  NoDup (obj_keys buf) ->
  exists payload,
    save cls this key value options s =
      lift (proto_save (VObj payload)
              (VObj (obj_put "method" (VStr "update") o)))
        (with_patch None s1) /\
    forall k,
      obj_get k payload =
        match obj_get k buf with
        | Some v => Some v
        | None => if is_virtual cls (VStr k) then None else obj_get k attrs
        end.
Proof.
  intros A U P L R Bf N.
  exists (extend (non_virtuals cls attrs) buf). split.
  - erewrite save_patch_branch by eassumption.
    rewrite each_plain by assumption.
    cbv [bind ret]. rewrite R, Bf. reflexivity.
  - intros k. rewrite (obj_get_extend k buf (non_virtuals cls attrs) N).
    now rewrite non_virtuals_get.
Qed.

(** X9.  A single-key [set(key, value)] on a virtual with a setter calls
    the setter with the value and returns the instance: what the setter
    returns is dropped, what it throws propagates, and [set] itself
    touches neither the buffer nor the base model. *)
Theorem set_virtual_with_setter (this : Self B) (arguments : list JS.value)
    (vt : virtual B) (f : Self B -> JS.value -> M (Instance B) JS.value)
    (s : Instance B) :
  is_nullish (nth 0 arguments VUndefined) = false ->
  isObject (nth 0 arguments VUndefined) = false ->
  registered cls (nth 0 arguments VUndefined) = Some vt ->
  setter_of vt = Some f ->
  set cls this arguments s =
    match f this (nth 1 arguments VUndefined) s with
    | (s1, Ok _) => (s1, Ok This)
    | (s1, Throw e) => (s1, Throw e)
    end.
Proof.
  intros N O R F. unfold set. rewrite N.
  unfold bind at 1. unfold get_state at 1.
  destruct (nth 0 arguments VUndefined) eqn:K; try discriminate;
    unfold bind at 1; rewrite setVirtual_cases, R, F; cbv [bind ret];
    destruct (f this (nth 1 arguments VUndefined) s) as [s1 [r|e]];
    reflexivity.
Qed.

(** X10.  Outside a patch save, a single-key [set] under a name that
    [this.virtuals[key]] does not find (neither a declared virtual nor a
    name inherited from [Object.prototype]) is the base model's [set] on
    the same arguments, and no buffer appears. *)
Theorem set_real_attribute (this : Self B) (arguments : list JS.value)
    (s : Instance B) :
  is_nullish (nth 0 arguments VUndefined) = false ->
  isObject (nth 0 arguments VUndefined) = false ->
  is_virtual cls (nth 0 arguments VUndefined) = false ->
  patchAttributes s = None ->
  set cls this arguments s = lift (proto_set arguments) s /\
  patchAttributes (fst (set cls this arguments s)) = None.
Proof.
  intros N O V P.
  assert (R : registered cls (nth 0 arguments VUndefined) = None).
  { destruct (registered cls (nth 0 arguments VUndefined)) as [vt|] eqn:R;
      [|reflexivity].
    rewrite (is_virtual_declared cls _ R) in V. discriminate. }
  assert (E : set cls this arguments s = lift (proto_set arguments) s).
  { unfold set. rewrite N.
    unfold bind at 1. unfold get_state at 1. rewrite P.
    destruct (nth 0 arguments VUndefined) eqn:K; try discriminate;
      unfold bind at 1; rewrite setVirtual_cases, R, V; reflexivity. }
  split; [exact E|]. rewrite E, lift_patchAttributes. exact P.
Qed.

Theorem set_bag_second_argument (this : Self B) (bag : obj)
    (v v' : JS.value) (rest : list JS.value) (s : Instance B) :
  set cls this (VObj bag :: v :: rest) s =
    set cls this (VObj bag :: v' :: rest) s.
Proof. reflexivity. Qed.

(** With [virtuals] undefined nothing is found under any name. *)
Lemma undefined_virtuals_lookup :
  virtuals cls = None -> forall key, lookup cls key = None.
Proof. unfold lookup. now intros ->. Qed.

Lemma no_virtuals_getVirtuals (this : Self B) (params : JS.value)
    (s : Instance B) :
  virtual_names cls = [] -> getVirtuals cls this params s = (s, Ok []).
Proof.
  unfold virtual_names, getVirtuals. intros H.
  destruct (virtuals cls) as [[|[k vt] r]|]; try reflexivity. discriminate.
Qed.

Lemma extend_empty_source (o : obj) : extend o [] = o.
Proof. reflexivity. Qed.

(** [_.extend] on distinct names that the target lacks appends them. *)
Lemma extend_fresh (acc src : obj) :
  NoDup (obj_keys (acc ++ src)%list) -> extend acc src = (acc ++ src)%list.
Proof.
  unfold extend. revert acc.
  induction src as [|[k v] src IH]; intros acc H; simpl.
  - now rewrite app_nil_r.
  - assert (P : obj_put k v acc = (acc ++ [(k, v)])%list).
    { unfold obj_keys in H. rewrite map_app in H. simpl in H.
      apply NoDup_remove_2 in H.
      assert (Hk : ~ In k (map fst acc)) by (intros X; apply H, in_or_app; now left).
      clear H IH. induction acc as [|[k0 v0] acc IHa]; simpl; [reflexivity|].
      destruct (String.eqb k k0) eqn:E.
      - apply String.eqb_eq in E. subst. exfalso. apply Hk. now left.
      - f_equal. apply IHa. intros X. apply Hk. now right. }
    rewrite P, IH; rewrite <- app_assoc; [reflexivity | exact H].
Qed.

(** X11.  On a class that declares no virtual the plugin is transparent
    for [toJSON] and the mixed-in Lodash methods, which are the base
    model's and Lodash's on the attributes themselves; [get] is the base
    model's for every name when [virtuals] is undefined, and when it is
    an empty object for every name that object does not inherit. *)
Theorem transparent_without_virtuals {R : Type}
    (lodash : modelMethod -> list JS.value -> R) (this : Self B)
    (s : Instance B) :
  virtual_names cls = [] ->
  (forall options, toJSON cls this options s = lift (proto_toJSON options) s) /\
  (forall method arguments,
     NoDup (obj_keys (attributes (base s))) ->
     mixin cls lodash method this arguments s =
       (s, Ok (lodash method (VObj (attributes (base s)) :: arguments)))) /\
  (virtuals cls = None ->
   forall arguments, get cls this arguments s = lift (proto_get arguments) s) /\
  (forall arguments,
     inherited_name (to_key (nth 0 arguments VUndefined)) = false ->
     get cls this arguments s = lift (proto_get arguments) s).
Proof.
  intros H. split; [|split; [|split]].
  - intros options. unfold toJSON. unfold bind at 1.
    destruct (lift (proto_toJSON options) s) as [s1 [attrs|e]]; [|reflexivity].
    unfold bind at 1. unfold get_state at 1.
    destruct (truthy options && truthy (prop options "omitNew")
              && isNew (base s1)); [reflexivity|].
    destruct (negb (truthy options)
              || negb (is_false (prop options "virtuals"))); [|reflexivity].
    destruct ((truthy options && is_true (prop options "virtuals"))
              || outputVirtuals cls); [|reflexivity].
    unfold bind. now rewrite (no_virtuals_getVirtuals this _ s1 H).
  - intros method arguments N. unfold mixin. unfold bind at 1.
    rewrite (no_virtuals_getVirtuals this _ s H).
    cbv [bind get_state ret]. rewrite extend_empty_source.
    now rewrite (extend_fresh [] (attributes (base s)) N).
  - intros V arguments. unfold get, is_virtual.
    now rewrite (undefined_virtuals_lookup V).
  - intros arguments I. unfold get.
    assert (Rg : registered cls (nth 0 arguments VUndefined) = None).
    { unfold virtual_names, registered in *.
      destruct (virtuals cls) as [[|[k vt] r]|]; try reflexivity.
      discriminate. }
    rewrite (is_virtual_undeclared cls _ Rg), I.
    now destruct (virtuals cls).
Qed.

(** The three ways out of [toJSON]. *)
Lemma toJSON_cases (this : Self B) (options : JS.value) (s : Instance B) :
  toJSON cls this options s =
    match lift (proto_toJSON options) s with
    | (s1, Ok attrs) =>
        if truthy (prop options "omitNew") && isNew (base s1)
        then (s1, Ok attrs)
        else if merges_virtuals cls options
        then (vs <- getVirtuals cls this
                      (js_and options (prop options "virtualParams")) ;;
              ret (extend attrs vs)) s1
        else (s1, Ok attrs)
    | (s1, Throw e) => (s1, Throw e)
    end.
Proof.
  unfold toJSON. unfold bind at 1.
  destruct (lift (proto_toJSON options) s) as [s1 [attrs|e]]; [|reflexivity].
  unfold bind at 1. unfold get_state at 1.
  unfold merges_virtuals, virtuals_option.
  destruct options as [| |[]|n|str|o]; simpl;
    try (destruct (outputVirtuals cls); reflexivity).
  - destruct (n =? 0); simpl; destruct (outputVirtuals cls); reflexivity.
  - destruct (String.eqb str ""); simpl;
      destruct (outputVirtuals cls); reflexivity.
  - destruct (truthy (prop (VObj o) "omitNew") && isNew (base s1)) eqn:O;
      simpl in O; rewrite O; [reflexivity|].
    destruct (obj_get "virtuals" o) as [[| |[]|n|str|o']|]; simpl;
      destruct (outputVirtuals cls); reflexivity.
Qed.

(** X12.  When [toJSON] merges the virtuals, the names of its output are
    the names of the base representation together with the declared
    virtual names, and a name that is not a virtual keeps the value the
    base representation gave it. *)
Theorem toJSON_keys (this : Self B) (options : JS.value)
    (s s1 s2 : Instance B) (attrs out : obj) :
  lift (proto_toJSON options) s = (s1, Ok attrs) ->
  truthy (prop options "omitNew") && isNew (base s1) = false ->
  merges_virtuals cls options = true ->
  toJSON cls this options s = (s2, Ok out) ->
  forall k,
    (In k (obj_keys out) <->
       In k (obj_keys attrs) \/ In k (virtual_names cls)) /\
    (~ In k (virtual_names cls) -> obj_get k out = obj_get k attrs).
Proof.
  intros L O Mg T k. rewrite toJSON_cases, L, O, Mg in T.
  cbv [bind ret] in T.
  destruct (getVirtuals cls this
              (js_and options (prop options "virtualParams")) s1)
    as [s3 [vs|e]] eqn:G; [|discriminate].
  inversion T; subst. apply getVirtuals_keys in G. destruct G as [Nv Kv].
  split.
  - now rewrite obj_keys_extend, Kv.
  - intros Hn. rewrite (obj_get_extend k vs attrs Nv).
    destruct (obj_get k vs) eqn:E; [|reflexivity].
    exfalso. apply Hn, Kv.
    destruct (in_dec string_dec k (obj_keys vs)) as [I|I]; [exact I|].
    apply obj_get_None in I. congruence.
Qed.

(** One write of a real attribute while capturing. *)
Lemma set_capture_step (this : Self B) (k : string) (v : JS.value)
    (buf : obj) (s : Instance B) :
  patchAttributes s = Some buf ->
  is_virtual cls (VStr k) = false ->
  set cls this [VStr k; v] s =
    lift (proto_set [VStr k; v]) (with_patch (Some (obj_put k v buf)) s).
Proof.
  intros P V.
  apply (set_while_capturing cls this [VStr k; v] s P eq_refl eq_refl V).
Qed.

Lemma extend_NoDup (src acc : obj) :
  NoDup (obj_keys acc) -> NoDup (obj_keys (extend acc src)).
Proof.
  unfold extend. revert acc.
  induction src as [|[k v] src IH]; intros acc H; simpl; [exact H|].
  apply IH. now apply obj_put_NoDup.
Qed.

(** A writer run while capturing: the buffer receives every write and
    the base model's [set] has been through each of them. *)
Lemma writer_run (d : nat) (ws : list (string * (JS.value -> JS.value)))
    (x : JS.value) (buf : obj) (s : Instance B) :
  (forall k f, In (k, f) ws -> is_virtual cls (VStr k) = false) ->
  (forall arguments b, exists b' r, proto_set arguments b = (b', Ok r)) ->
  patchAttributes s = Some buf ->
  exists b',
    writer ws (self cls (S d)) x s =
      ({| base := b';
          patchAttributes := Some (extend buf (written ws x)) |},
       Ok VUndefined).
Proof.
  intros Hk Hset. revert buf s.
  induction ws as [|[k f] ws IH]; intros buf s P.
  - exists (base s). simpl. unfold ret. destruct s as [b p]. simpl in *.
    now subst.
  - simpl writer. unfold bind at 1.
    change (this_set (self cls (S d)) [VStr k; f x] s)
      with (set cls (self cls d) [VStr k; f x] s).
    rewrite (set_capture_step (self cls d) k (f x) s P
               (Hk k f (or_introl eq_refl))).
    unfold lift. simpl base. simpl patchAttributes.
    destruct (Hset [VStr k; f x] (base s)) as [b1 [r E]]. rewrite E.
    destruct (IH (fun k' f' Hin => Hk k' f' (or_intror Hin))
                (obj_put k (f x) buf)
                {| base := b1;
                   patchAttributes := Some (obj_put k (f x) buf) |}
                eq_refl) as [b' E'].
    exists b'. cbv beta iota. exact E'.
Qed.

(** X8.  End to end, over any base model whose [set] returns: patch-saving
    [{name: x}] for a virtual whose setter only writes through
    [this.set], under names that [this.virtuals[name]] does not find,
    hands exactly those writes to the base model's [save]; the buffer is
    gone afterwards. *)
Theorem save_patch_through_writer (d : nat) (key value options : JS.value)
    (s : Instance B) (name : string) (x : JS.value) (o : obj)
    (vt : virtual B) (ws : list (string * (JS.value -> JS.value))) :
  save_arguments key value options = ([(name, x)], VObj o) ->
  is_update (saveMethod (base s) (VObj o)) = true ->
  truthy (prop (VObj o) "patch") = true ->
  array_like_length [(name, x)] = None ->
  registered cls (VStr name) = Some vt ->
  setter_of vt = Some (writer ws) ->
  (forall k f, In (k, f) ws -> is_virtual cls (VStr k) = false) ->
  (forall arguments b, exists b' r, proto_set arguments b = (b', Ok r)) ->
  exists b',
    save cls (self cls (S d)) key value options s =
      lift (proto_save (VObj (extend [] (written ws x)))
              (VObj (obj_put "method" (VStr "update") o)))
        {| base := b'; patchAttributes := None |} /\
    forall k, In k (obj_keys (extend [] (written ws x))) ->
              is_virtual cls (VStr k) = false.
Proof.
  intros A U P L R F Hk Hset.
  assert (P0 : patchAttributes (with_patch (Some []) s) = Some [])
    by reflexivity.
  destruct (writer_run d ws x (with_patch (Some []) s) Hk Hset P0) as [b' W].
  exists b'. split.
  - erewrite save_patch_branch by eassumption.
    rewrite each_plain by assumption.
    simpl run_setters. rewrite R, F.
    cbv [bind].
    change (self cls (S d))
      with {| this_get := get cls (self cls d);
              this_set := set cls (self cls d) |} in W.
    rewrite W. cbv [ret extend_opt patchAttributes with_patch].
    unfold non_virtuals. simpl filter.
    rewrite (is_virtual_declared cls _ R). simpl.
    rewrite (extend_fresh [] (extend [] (written ws x))).
    + reflexivity.
    + simpl. apply extend_NoDup. constructor.
  - intros k Hin. apply obj_keys_extend in Hin.
    destruct Hin as [[]|Hin]. unfold written, obj_keys in Hin.
    rewrite map_map in Hin. simpl in Hin. apply in_map_iff in Hin.
    destruct Hin as [[k' f] [E Hin]]. simpl in E. subst k'.
    exact (Hk k f Hin).
Qed.

Lemma assoc_of_name (r : list (string * virtual B)) (n : string) :
  In n (map fst r) -> exists vt, assoc n r = Some vt.
Proof.
  induction r as [|[k v] r IH]; intros Hn; [destruct Hn|].
  simpl. destruct (String.eqb n k) eqn:E; [eauto|].
  destruct Hn as [Hn|Hn]; [|auto].
  simpl in Hn. subst. now rewrite String.eqb_refl in E.
Qed.

Lemma read_defined (r : list (string * virtual B)) (this : Self B)
    (name : string) (names : list string) :
  (forall n, In n names -> exists vt, assoc n r = Some vt) ->
  In name names ->
  exists vt,
    assoc name r = Some vt /\
    read_property (flat_map (defineProperty r) names) this name =
      Some (getter_of vt this []) /\
    exists p,
      In (name, p) (flat_map (defineProperty r) names) /\
      enumerable p = true /\ property_set p = setter_of vt.
Proof.
  induction names as [|n names IH]; intros Hall Hn; [destruct Hn|].
  simpl. destruct (Hall n (or_introl eq_refl)) as [vt0 E0].
  unfold defineProperty at 1 3. rewrite E0.
  destruct (String.eqb name n) eqn:E.
  - apply String.eqb_eq in E. subst n. exists vt0. split; [exact E0|].
    destruct vt0; simpl; rewrite String.eqb_refl;
      (split; [reflexivity|]); eexists; (split; [left; reflexivity|]);
      split; reflexivity.
  - destruct IH as [vt [E1 [E2 [p [I1 [I2 I3]]]]]].
    + intros n' Hn'. apply Hall. now right.
    + destruct Hn as [Hn|Hn]; [|exact Hn].
      subst n. now rewrite String.eqb_refl in E.
    + exists vt. split; [exact E1|].
      destruct vt0; simpl; rewrite E; (split; [exact E2|]);
        exists p; (split; [right; exact I1|]); split; assumption.
Qed.

(** Every declared name is defined as an accessor whose read is [get]. *)
Lemma defined_property_read (this : Self B) (name : string) :
  In name (virtual_names cls) ->
  exists read vt p,
    registered cls (VStr name) = Some vt /\
    In (name, p) (defineProperties cls) /\
    enumerable p = true /\
    property_set p = setter_of vt /\
    read_property (defineProperties cls) this name = Some read /\
    forall s, read s = get cls this [VStr name] s.
Proof.
  unfold virtual_names, defineProperties, registered. simpl to_key.
  destruct (virtuals cls) as [r|] eqn:V; [|intros []].
  intros Hin.
  destruct (read_defined r this name (map fst r) (assoc_of_name r) Hin)
    as [vt [E1 [E2 [p [I1 [I2 I3]]]]]].
  exists (getter_of vt this []), vt, p.
  repeat (split; [assumption|]).
  intros s. unfold get, is_virtual, getVirtual, lookup.
  rewrite V. simpl. now rewrite E1.
Qed.

(** X13.  When the constructor returns, the base constructor has run on
    the same arguments and every declared virtual is an enumerable
    accessor property of the instance, with the virtual's setter (none
    for a read-only virtual); reading that property computes what
    [get(name)] computes. *)
Theorem constructor_installs_getters
    (proto_constructor : list JS.value -> M (Instance B) unit)
    (arguments : list JS.value) (s s' : Instance B)
    (props : list (string * property B)) (this : Self B) (name : string) :
  constructor cls proto_constructor arguments s = (s', Ok props) ->
  In name (virtual_names cls) ->
  proto_constructor arguments s = (s', Ok tt) /\
  exists read vt p,
    registered cls (VStr name) = Some vt /\
    In (name, p) props /\
    enumerable p = true /\
    property_set p = setter_of vt /\
    read_property props this name = Some read /\
    forall s0, read s0 = get cls this [VStr name] s0.
Proof.
  unfold constructor. cbv [bind ret]. intros C Hin.
  destruct (proto_constructor arguments s) as [s1 [[]|e]]; [|discriminate].
  inversion C; subst. split; [reflexivity|].
  now apply defined_property_read.
Qed.
End Further.

(** ** Further runs on the reference base model *)

(** A patch option on a record not yet persisted: an insert. *)
Lemma save_without_patch_witness :
  save Person (self Person depth) (VObj [("fullName", VStr "Ada Lovelace")])
    (VObj [("patch", VBool true)]) VUndefined draft =
    lift (proto_save (VObj [("fullName", VStr "Ada Lovelace")])
            (VObj [("patch", VBool true); ("method", VStr "insert")])) draft.
Proof.
  assert (A : save_arguments (VObj [("fullName", VStr "Ada Lovelace")])
                (VObj [("patch", VBool true)]) VUndefined =
              ([("fullName", VStr "Ada Lovelace")],
               VObj [("patch", VBool true)])) by reflexivity.
  assert (C : is_update (saveMethod (base draft) (VObj [("patch", VBool true)]))
              && truthy (prop (VObj [("patch", VBool true)]) "patch") = false)
    by reflexivity.
  exact (proj1 (save_without_patch Person (self Person depth) _ _ _ draft A C)).
Defined.


(** [save({first: 'Ada'}, 'patch')]. *)
Lemma save_primitive_options_witness :
  save Person (self Person depth) (VObj [("first", VStr "Ada")])
    (VStr "patch") VUndefined ada = (ada, Throw TypeError).
Proof.
  apply (save_primitive_options Person (self Person depth)
           (VObj [("first", VStr "Ada")]) (VStr "patch") VUndefined ada);
    reflexivity.
Defined.

(** A patch save started on an instance that carries a buffer. *)
Lemma save_patch_releases_buffer_witness :
  patchAttributes
    (fst (save Person (self Person depth)
            (VObj [("fullName", VStr "Ada Lovelace")])
            (VObj [("patch", VBool true)]) VUndefined capturing)) = None.
Proof.
  assert (A : save_arguments (VObj [("fullName", VStr "Ada Lovelace")])
                (VObj [("patch", VBool true)]) VUndefined =
              ([("fullName", VStr "Ada Lovelace")],
               VObj [("patch", VBool true)])) by reflexivity.
  assert (U : is_update (saveMethod (base capturing)
                           (VObj [("patch", VBool true)])) = true)
    by reflexivity.
  assert (P : truthy (prop (VObj [("patch", VBool true)]) "patch") = true)
    by reflexivity.
  exact (save_patch_releases_buffer Person (self Person depth) _ _ _
           capturing A U P).
Defined.

(** [save({fullName: 'Ada Lovelace', length: 2}, {patch: true})]. *)
Lemma save_array_like_payload_witness :
  save Person (self Person depth)
    (VObj [("fullName", VStr "Ada Lovelace"); ("length", VNum 2)])
    (VObj [("patch", VBool true)]) VUndefined ada =
    lift (proto_save
            (VObj [("fullName", VStr "Ada Lovelace"); ("length", VNum 2)])
            (VObj [("patch", VBool true); ("method", VStr "update")]))
      (with_patch None ada).
Proof.
  assert (A : save_arguments
                (VObj [("fullName", VStr "Ada Lovelace"); ("length", VNum 2)])
                (VObj [("patch", VBool true)]) VUndefined =
              ([("fullName", VStr "Ada Lovelace"); ("length", VNum 2)],
               VObj [("patch", VBool true)])) by reflexivity.
  assert (U : is_update (saveMethod (base ada)
                           (VObj [("patch", VBool true)])) = true)
    by reflexivity.
  assert (P : truthy (prop (VObj [("patch", VBool true)]) "patch") = true)
    by reflexivity.
  assert (L : array_like_length
                [("fullName", VStr "Ada Lovelace"); ("length", VNum 2)] =
              Some 2) by reflexivity.
  assert (H : forall i, 0 <= i < 2 -> is_virtual Person (VNum i) = false).
  { intros i Hi. assert (E : i = 0 \/ i = 1) by lia.
    destruct E as [E|E]; subst i; reflexivity. }
  exact (save_array_like_payload Person (self Person depth) _ _ _ ada
           A U P L H).
Defined.

(** [save({first: 'Ada', age: 36}, {patch: true})]. *)
Lemma save_patch_real_attributes_witness :
  save Person (self Person depth)
    (VObj [("first", VStr "Ada"); ("age", VNum 36)])
    (VObj [("patch", VBool true)]) VUndefined ada =
    lift (proto_save (VObj [("first", VStr "Ada"); ("age", VNum 36)])
            (VObj [("patch", VBool true); ("method", VStr "update")]))
      (with_patch None ada).
Proof.
  assert (A : save_arguments (VObj [("first", VStr "Ada"); ("age", VNum 36)])
                (VObj [("patch", VBool true)]) VUndefined =
              ([("first", VStr "Ada"); ("age", VNum 36)],
               VObj [("patch", VBool true)])) by reflexivity.
  assert (U : is_update (saveMethod (base ada)
                           (VObj [("patch", VBool true)])) = true)
    by reflexivity.
  assert (P : truthy (prop (VObj [("patch", VBool true)]) "patch") = true)
    by reflexivity.
  assert (L : array_like_length [("first", VStr "Ada"); ("age", VNum 36)] =
              None) by reflexivity.
  assert (H : forall k v, In (k, v) [("first", VStr "Ada"); ("age", VNum 36)] ->
                          is_virtual Person (VStr k) = false).
  { intros k v [E|[E|[]]]; inversion E; reflexivity. }
  exact (save_patch_real_attributes Person (self Person depth) _ _ _ ada
           A U P L H).
Defined.

(** [save({first: 'X', fullName: 'Ada Lovelace'}, {patch: true})]: the
    setter's [first] stands. *)
Lemma save_patch_buffer_wins_witness :
  exists payload,
    save Person (self Person depth)
      (VObj [("first", VStr "X"); ("fullName", VStr "Ada Lovelace")])
      (VObj [("patch", VBool true)]) VUndefined ada =
      lift (proto_save (VObj payload)
              (VObj [("patch", VBool true); ("method", VStr "update")]))
        (with_patch None
           (fst (run_setters Person (self Person depth)
                   [("first", VStr "X"); ("fullName", VStr "Ada Lovelace")]
                   (with_patch (Some []) ada)))) /\
    obj_get "first" payload = Some (VStr "Ada") /\
    obj_get "fullName" payload = None.
Proof.
  assert (A : save_arguments
                (VObj [("first", VStr "X"); ("fullName", VStr "Ada Lovelace")])
                (VObj [("patch", VBool true)]) VUndefined =
              ([("first", VStr "X"); ("fullName", VStr "Ada Lovelace")],
               VObj [("patch", VBool true)])) by reflexivity.
  assert (U : is_update (saveMethod (base ada)
                           (VObj [("patch", VBool true)])) = true)
    by reflexivity.
  assert (P : truthy (prop (VObj [("patch", VBool true)]) "patch") = true)
    by reflexivity.
  assert (L : array_like_length
                [("first", VStr "X"); ("fullName", VStr "Ada Lovelace")] =
              None) by reflexivity.
  assert (R : run_setters Person (self Person depth)
                [("first", VStr "X"); ("fullName", VStr "Ada Lovelace")]
                (with_patch (Some []) ada) =
              (fst (run_setters Person (self Person depth)
                      [("first", VStr "X"); ("fullName", VStr "Ada Lovelace")]
                      (with_patch (Some []) ada)), Ok tt)) by reflexivity.
  assert (Bf : patchAttributes
                 (fst (run_setters Person (self Person depth)
                         [("first", VStr "X");
                          ("fullName", VStr "Ada Lovelace")]
                         (with_patch (Some []) ada))) =
               Some [("first", VStr "Ada"); ("last", VStr "Lovelace")])
    by reflexivity.
  assert (N : NoDup (obj_keys [("first", VStr "Ada");
                               ("last", VStr "Lovelace")])).
  { simpl. repeat constructor; simpl; intuition discriminate. }
  destruct (save_patch_buffer_wins Person (self Person depth) _ _ _ ada
              A U P L R Bf N) as [payload [E K]].
  exists payload. split; [exact E|].
  split; [exact (K "first") | exact (K "fullName")].
Defined.

(** The reference base model's [set] always returns. *)
Lemma row_set_returns (arguments : list JS.value) (b : Row) :
  exists b' r, proto_set arguments b = (b', Ok r).
Proof.
  simpl. unfold row_set.
  destruct (is_nullish (nth 0 arguments VUndefined)); [eauto|].
  destruct (nth 0 arguments VUndefined); eauto.
Defined.

(** [save({fullName: 'Grace Hopper'}, {patch: true})]. *)
Lemma save_patch_through_writer_witness :
  exists b',
    save Person (self Person depth)
      (VObj [("fullName", VStr "Grace Hopper")])
      (VObj [("patch", VBool true)]) VUndefined ada =
      lift (proto_save
              (VObj [("first", VStr "Grace"); ("last", VStr "Hopper")])
              (VObj [("patch", VBool true); ("method", VStr "update")]))
        {| base := b'; patchAttributes := None |}.
Proof.
  assert (A : save_arguments (VObj [("fullName", VStr "Grace Hopper")])
                (VObj [("patch", VBool true)]) VUndefined =
              ([("fullName", VStr "Grace Hopper")],
               VObj [("patch", VBool true)])) by reflexivity.
  assert (U : is_update (saveMethod (base ada)
                           (VObj [("patch", VBool true)])) = true)
    by reflexivity.
  assert (P : truthy (prop (VObj [("patch", VBool true)]) "patch") = true)
    by reflexivity.
  assert (L : array_like_length [("fullName", VStr "Grace Hopper")] = None)
    by reflexivity.
  assert (R : registered Person (VStr "fullName") = Some fullName)
    by reflexivity.
  assert (F : setter_of fullName =
              Some (writer [("first", split_at 0); ("last", split_at 1)]))
    by reflexivity.
  assert (Hk : forall k f,
             In (k, f) [("first", split_at 0); ("last", split_at 1)] ->
             is_virtual Person (VStr k) = false).
  { intros k f [E|[E|[]]]; inversion E; reflexivity. }
  destruct (@save_patch_through_writer _ _ _ Person 7 _ _ _ ada _ _ _ _ _
              A U P L R F Hk row_set_returns) as [b' [E _]].
  exists b'. exact E.
Defined.

(** [set('locked', 'boom')]: the setter throws its argument. *)
Lemma set_virtual_with_setter_witness :
  set Person (self Person depth) [VStr "locked"; VStr "boom"] ada =
    (ada, Throw (Thrown (VStr "boom"))).
Proof.
  assert (R : registered Person (nth 0 [VStr "locked"; VStr "boom"] VUndefined)
              = Some locked) by reflexivity.
  assert (F : setter_of locked = Some (fun _ x => throw (Thrown x)))
    by reflexivity.
  rewrite (set_virtual_with_setter Person (self Person depth)
             [VStr "locked"; VStr "boom"] ada eq_refl eq_refl R F).
  reflexivity.
Defined.

(** [set('age', 36, {})]. *)
Lemma set_real_attribute_witness :
  set Person (self Person depth) [VStr "age"; VNum 36; VObj []] ada =
    lift (proto_set [VStr "age"; VNum 36; VObj []]) ada.
Proof.
  assert (V : is_virtual Person
                (nth 0 [VStr "age"; VNum 36; VObj []] VUndefined) = false)
    by reflexivity.
  exact (proj1 (set_real_attribute Person (self Person depth)
                  [VStr "age"; VNum 36; VObj []] ada
                  eq_refl eq_refl V eq_refl)).
Defined.

(** [toJSON({virtuals: true})] on a class without virtuals. *)
Lemma transparent_without_virtuals_witness :
  toJSON {| virtuals := None; outputVirtuals := true |}
    (self {| virtuals := None; outputVirtuals := true |} depth)
    (VObj [("virtuals", VBool true)]) ada =
    lift (proto_toJSON (VObj [("virtuals", VBool true)])) ada.
Proof.
  exact (proj1 (transparent_without_virtuals
                  {| virtuals := None; outputVirtuals := true |}
                  (fun (m : modelMethod) (a : list JS.value) => (m, a))
                  (self {| virtuals := None; outputVirtuals := true |} depth)
                  ada eq_refl)
           (VObj [("virtuals", VBool true)])).
Defined.

(** [toJSON()] on a fetched record. *)
Lemma toJSON_keys_witness :
  (In "fullName" (obj_keys (attributes (base ada))) \/
   In "fullName" (virtual_names Person)) /\
  In "fullName"
    (obj_keys [("id", VNum 1); ("first", VStr "A"); ("last", VStr "L");
               ("fullName", VStr "A L"); ("initials", VStr "AL");
               ("locked", VBool true); ("v", VUndefined)]).
Proof.
  assert (L : lift (proto_toJSON VUndefined) ada =
              (ada, Ok [("id", VNum 1); ("first", VStr "A");
                        ("last", VStr "L")])) by reflexivity.
  assert (O : truthy (prop VUndefined "omitNew") && isNew (base ada) = false)
    by reflexivity.
  assert (Mg : merges_virtuals Person VUndefined = true) by reflexivity.
  assert (T : toJSON Person (self Person depth) VUndefined ada =
              (ada, Ok [("id", VNum 1); ("first", VStr "A");
                        ("last", VStr "L"); ("fullName", VStr "A L");
                        ("initials", VStr "AL"); ("locked", VBool true);
                        ("v", VUndefined)])) by reflexivity.
  destruct (toJSON_keys Person (self Person depth) VUndefined ada
              L O Mg T "fullName") as [[K1 K2] _].
  split; [right; simpl; now left|].
  apply K2. right. simpl. now left.
Defined.

(** [model.fullName] after construction over a trivial base constructor. *)
Lemma constructor_installs_getters_witness :
  exists read,
    read_property (defineProperties Person) (self Person depth) "fullName" =
      Some read /\
    read ada = get Person (self Person depth) [VStr "fullName"] ada.
Proof.
  assert (C : constructor Person (fun _ => ret tt) [] ada =
              (ada, Ok (defineProperties Person))) by reflexivity.
  assert (I : In "fullName" (virtual_names Person)) by (simpl; now left).
  destruct (@constructor_installs_getters _ _ _ Person (fun _ => ret tt) []
              ada ada (defineProperties Person) (self Person depth)
              "fullName" C I)
    as [_ [read [vt [p [_ [_ [_ [_ [E G]]]]]]]]].
  exists read. split; [exact E | apply G].
Defined.

(** Names inherited from [Object.prototype] on a class whose [virtuals] is
    an object literal: a single-key write is dropped without a call to
    the base model, in or out of a capture, and a patch save strips the
    property from the payload. *)
Example inherited_name_runs :
  set Person (self Person depth) [VStr "constructor"; VNum 5] ada =
    (ada, Ok This) /\
  set Person (self Person depth) [VStr "toString"; VNum 5] capturing =
    (capturing, Ok This) /\
  calls (base (fst (save Person (self Person depth)
                      (VObj [("constructor", VNum 5)])
                      (VObj [("patch", VBool true)]) VUndefined ada))) =
    [CallSave (VObj [])
       (VObj [("patch", VBool true); ("method", VStr "update")])].
Proof. repeat split. Qed.

(** With [virtuals] undefined there is no object to inherit from: the
    same names go to the base model. *)
Example undefined_virtuals_runs :
  calls (base (fst (set {| virtuals := None; outputVirtuals := true |}
                      (self {| virtuals := None; outputVirtuals := true |}
                         depth)
                      [VStr "constructor"; VNum 5] ada))) =
    [CallSet [VStr "constructor"; VNum 5]].
Proof. reflexivity. Qed.
